(** * stock_ai-backend: the news-search adapter and the article extractor

    A shallow embedding of [main.py].  Python values are modelled as the code
    has them.  A [str] the code only compares, concatenates or tests for
    emptiness (keywords, sort tokens, credentials, urls, messages, tag and
    attribute names, raw response bodies) is a [string]; the text of a page,
    which the code strips, is a sequence of Unicode code points ([Py.str]),
    with the whitespace of [str.strip].  [int] is [Z]; [None] is the JSON
    null; dictionaries received from outside are
    [gmap]s; dictionaries built with a fixed set of keys are records or
    association lists.  The outbound HTTP calls are effects of a small monad
    that reads the process configuration and logs every [client.get] it
    makes.  The HTML and JSON parsers are third-party code: the operations
    take them as parameters, and the tree operations of BeautifulSoup the
    code calls are modelled on the parsed tree. *)

From Stdlib Require Import ZArith String Ascii List Lia.
From stdpp Require Import base option list strings gmap.

Local Open Scope string_scope.
Local Open Scope Z_scope.
Set Warnings "-register-all".

(** ** Python strings *)

Module Py.

(** [bool(s)] of a [str] held as a [string]: the empty string is the only
    falsy one. *)
Definition truthy (s : string) : bool :=
  match s with
  | EmptyString => false
  | String _ _ => true
  end.

(** Text: a [str] as the sequence of its Unicode code points. *)
Abbreviation str := (list N).

(** The text of an ASCII literal. *)
Definition lit (s : string) : str := N_of_ascii <$> list_ascii_of_string s.

(** [bool(s)] of a text: the empty one is the only falsy one. *)
Definition nonempty (s : str) : bool :=
  match s with
  | [] => false
  | _ :: _ => true
  end.

(** The characters [str.strip()] removes, that is [str.isspace] on one
    character: U+0009..U+000D, U+001C..U+001F, U+0020, U+0085, U+00A0,
    U+1680, U+2000..U+200A, U+2028, U+2029, U+202F, U+205F and U+3000. *)
Definition isspace (c : N) : bool :=
  ((0x9 <=? c) && (c <=? 0xD)
   || (0x1C <=? c) && (c <=? 0x20)
   || (c =? 0x85) || (c =? 0xA0)
   || (c =? 0x1680)
   || (0x2000 <=? c) && (c <=? 0x200A)
   || (c =? 0x2028) || (c =? 0x2029) || (c =? 0x202F)
   || (c =? 0x205F) || (c =? 0x3000))%N.

(** [s.lstrip()]. *)
Fixpoint lstrip (s : str) : str :=
  match s with
  | [] => []
  | c :: s' => if isspace c then lstrip s' else s
  end.

(** [s.rstrip()]: a whitespace character is dropped when everything after it
    has been dropped. *)
Fixpoint rstrip (s : str) : str :=
  match s with
  | [] => []
  | c :: s' =>
      match rstrip s' with
      | [] => if isspace c then [] else [c]
      | r => c :: r
      end
  end.

(** [s.strip()]. *)
Definition strip (s : str) : str := rstrip (lstrip s).

(** [sep.join(l)]. *)
Fixpoint join (sep : str) (l : list str) : str :=
  match l with
  | [] => []
  | [x] => x
  | x :: l' => x ++ sep ++ join sep l'
  end.

(** The one-character text ["\n"]. *)
Definition NL : str := [0xA%N].

End Py.

(** ** The parsed document (BeautifulSoup's tree) *)

Module Bs4.

(** The classes of string nodes; [get_text] keeps [NavigableString] and
    [CData] only. *)
Inductive string_class :=
| NavigableString | CData | Comment | Declaration | Doctype
| ProcessingInstruction | Script | Stylesheet | TemplateString.

(** A page element: a string node or a tag with its attribute dictionary and
    its children. *)
Inductive node :=
| Str (cls : string_class) (s : Py.str)
| Tag (name : string) (attrs : gmap string string) (contents : list node).

(** [tag.descendants]: every node below the tag, in document order. *)
Fixpoint descendants (n : node) : list node :=
  match n with
  | Str _ _ => []
  | Tag _ _ cs => flat_map (fun c => c :: descendants c) cs
  end.

Definition has_name (names : list string) (n : node) : bool :=
  match n with
  | Tag nm _ _ => bool_decide (nm ∈ names)
  | Str _ _ => false
  end.

(** [tag.find_all(names)]: the descendant tags whose name is one of [names],
    in document order (nested matches included). *)
Definition find_all (names : list string) (n : node) : list node :=
  List.filter (has_name names) (descendants n).

(** [tag.find(name)], which is also what [soup.title] is: the first match of
    [find_all], or [None]. *)
Definition find (name : string) (n : node) : option node :=
  head (find_all [name] n).

Definition has_id (i : string) (n : node) : bool :=
  match n with
  | Tag _ attrs _ => bool_decide (attrs !! "id" = Some i)
  | Str _ _ => false
  end.

(** [soup.select_one("#i")]: the first descendant tag, in document order,
    whose [id] attribute is [i]. *)
Definition select_one_id (i : string) (n : node) : option node :=
  head (List.filter (has_id i) (descendants n)).

Definition interesting (cls : string_class) : bool :=
  match cls with
  | NavigableString | CData => true
  | _ => false
  end.

(** The strings [_all_strings(strip=True)] yields: each interesting
    descendant string, stripped, the ones that strip to nothing skipped. *)
Definition stripped_strings (n : node) : list Py.str :=
  flat_map
    (fun d =>
       match d with
       | Str cls s =>
           if interesting cls && Py.nonempty (Py.strip s) then [Py.strip s] else []
       | Tag _ _ _ => []
       end)
    (descendants n).

(** [tag.get_text(strip=True)]: those strings joined by the empty
    separator. *)
Definition get_text_strip (n : node) : Py.str :=
  Py.join [] (stripped_strings n).

(** [tag.string]: the only child if it is a string node, the [.string] of the
    only child if it is a tag, [None] when there is not exactly one child. *)
Fixpoint string_of (n : node) : option Py.str :=
  match n with
  | Str _ s => Some s
  | Tag _ _ [c] => string_of c
  | Tag _ _ _ => None
  end.

End Bs4.

(** ** JSON values, as [res.json()] returns them *)

Inductive json :=
| JNull
| JBool (b : bool)
| JInt (z : Z)
| JFloat (literal : string)
| JStr (s : string)
| JArr (l : list json)
| JObj (d : gmap string json).

(** [d.get(k)]: the value, or [None] (the null) when the key is missing. *)
Definition dict_get (d : gmap string json) (k : string) : json :=
  default JNull (d !! k).

(** What a [for] loop over the value goes through: the elements of a list,
    the keys of a dictionary, the characters of a string; the other values
    are not iterable. *)
Definition iterate (v : json) : option (list json) :=
  match v with
  | JArr l => Some l
  | JObj d => Some (JStr <$> (map_to_list d).*1)
  | JStr s => Some ((fun c => JStr (String c EmptyString)) <$> list_ascii_of_string s)
  | JNull | JBool _ | JInt _ | JFloat _ => None
  end.

(** ** Outbound HTTP, errors and the handler monad *)

Inductive query_value := QStr (s : string) | QInt (z : Z).

(** One [client.get(url, headers=..., params=...)]. *)
Record Request := {
  req_url : string;
  req_headers : list (string * string);
  req_params : list (string * query_value) }.

(** The part of an [httpx.Response] the code reads. *)
Record Response := { status_code : Z; text : string }.

(** What a run depends on: the two values [os.getenv] gave at start-up and
    the network, which answers a request or fails in transport. *)
Record Env := {
  NAVER_CLIENT_ID : option string;
  NAVER_CLIENT_SECRET : option string;
  httpx_get : Request → option Response }.

(** [bool(x)] of what [os.getenv] returns: [None] and [""] are falsy. *)
Definition getenv_truthy (x : option string) : bool :=
  match x with
  | None => false
  | Some s => Py.truthy s
  end.

Inductive exn :=
| HTTPException (status : Z) (detail : string)
| RequestValidationError
| TransportError
| JSONDecodeError
| AttributeError
| TypeError.

(** The status of the HTTP response the framework builds from an exception:
    an [HTTPException] keeps its own, a rejected query parameter is 422,
    anything uncaught is 500. *)
Definition http_status (e : exn) : Z :=
  match e with
  | HTTPException s _ => s
  | RequestValidationError => 422
  | TransportError | JSONDecodeError | AttributeError | TypeError => 500
  end.

(** The status of the response the client of this backend receives. *)
Definition response_status {A} (r : exn + A) : Z :=
  match r with
  | inl e => http_status e
  | inr _ => 200
  end.

(** A handler reads the environment, logs the requests it sends, and ends in
    an exception or a value. *)
Definition M (A : Type) : Type := Env → list Request * (exn + A).

#[global] Instance M_ret : MRet M := λ A a _, ([], inr a).

#[global] Instance M_bind : MBind M := λ A B f m env,
  match m env with
  | (t, inl e) => (t, inl e)
  | (t, inr a) => let '(t', r) := f a env in ((t ++ t')%list, r)
  end.

Definition ask : M Env := λ env, ([], inr env).

Definition raise {A} (e : exn) : M A := λ _, ([], inl e).

(** [await client.get(...)]: the request goes out (and is logged) whatever
    comes back. *)
Definition client_get (rq : Request) : M Response := λ env,
  match httpx_get env rq with
  | Some res => ([rq], inr res)
  | None => ([rq], inl TransportError)
  end.

Definition requests_sent {A} (m : M A) (env : Env) : list Request := (m env).1.
Definition outcome {A} (m : M A) (env : Env) : exn + A := (m env).2.

(** [params[k]] of a request, if it has one. *)
Definition param (k : string) (rq : Request) : option query_value :=
  (list_to_map (req_params rq) : gmap string query_value) !! k.

(** ** Query parameters, as the framework validates them *)

(** An [int] parameter declared [Query(dflt, ge=lo, le=hi)]: the default when
    the request has none, the value when it is in range, a validation error
    otherwise; the handler body does not run on an error. *)
Definition Query_int (dflt lo hi : Z) (raw : option Z) : M Z :=
  match raw with
  | None => mret dflt
  | Some v =>
      if ((lo <=? v) && (v <=? hi))%Z then mret v
      else raise RequestValidationError
  end.

(** A [str] parameter declared [Query(dflt)]. *)
Definition Query_str (dflt : string) (raw : option string) : M string :=
  mret (default dflt raw).

(** A [str] parameter declared [Query(...)]: required. *)
Definition Query_required (raw : option string) : M string :=
  match raw with
  | Some v => mret v
  | None => raise RequestValidationError
  end.

(** ** Results *)

Module Article.
Record t := { title : json; desc : json; link : json; pubDate : json }.
End Article.

Module SearchResult.
Record t := { keyword : string; count : Z; articles : list Article.t }.
End SearchResult.

Module ArticleDetail.
Record t := { url : string; title : Py.str; content : Py.str; origin_link : string }.
End ArticleDetail.

(** ** Sample pages and environments, used to run the definitions *)

Module Samples.

Definition text_node (s : string) : Bs4.node :=
  Bs4.Str Bs4.NavigableString (Py.lit s).
Definition p (s : string) : Bs4.node := Bs4.Tag "p" ∅ [text_node s].

(** A paragraph holding any text, the ideographic space U+3000, and a
    Korean word whose UTF-8 form ends in the byte 0x85. *)
Definition p_text (t : Py.str) : Bs4.node :=
  Bs4.Tag "p" ∅ [Bs4.Str Bs4.NavigableString t].
Definition wide_space : Py.str := [0x3000%N].
Definition korean_word : Py.str := [0xAE30%N; 0xC5C5%N].
Definition span (s : string) : Bs4.node := Bs4.Tag "span" ∅ [text_node s].

(** The container of an article page of the target site: three paragraphs
    with text and two without, in this order: text, empty (an ideographic
    space), text, empty, text (a Korean word between an ideographic space
    and a space). *)
Definition dic_area : Bs4.node :=
  Bs4.Tag "div" {["id" := "dic_area"]}
    [p " Stocks rose. "; p_text (wide_space ++ Py.lit " "); span "Bonds fell.";
     Bs4.Tag "span" ∅ []; p_text (wide_space ++ korean_word ++ Py.lit " ")].

(** The page around it, with a title. *)
Definition naver_page : list Bs4.node :=
  [Bs4.Tag "html" ∅
     [Bs4.Tag "head" ∅ [Bs4.Tag "title" ∅ [text_node " Markets today "]];
      Bs4.Tag "body" ∅ [dic_area; p "footer"]]].



(** A page without the container whose forty [p] tags start with one that
    holds an ideographic space only; the thirty-first reads "late". *)
Definition wide_blank_first_page : list Bs4.node :=
  [Bs4.Tag "body" ∅
     (p_text wide_space :: replicate 29 (p "early") ++ [p "late"]
      ++ replicate 9 (p "dropped"))].

(** A page whose title and only paragraph hold ideographic spaces only. *)
Definition wide_blank_page : list Bs4.node :=
  [Bs4.Tag "title" ∅ [Bs4.Str Bs4.NavigableString wide_space];
   p_text (wide_space ++ wide_space)].

(** A title of ideographic spaces, and text in no [p] tag. *)
Definition wide_title_page : list Bs4.node :=
  [Bs4.Tag "title" ∅ [Bs4.Str Bs4.NavigableString wide_space];
   Bs4.Tag "div" ∅ [Bs4.Str Bs4.NavigableString korean_word]].


(** A page with nothing to extract. *)
Definition blank_page : list Bs4.node :=
  [Bs4.Tag "body" ∅ [Bs4.Tag "div" ∅ [text_node "rendered by script"]]].

(** A network that answers every request with the same response. *)
Definition always (res : Response) : Request → option Response :=
  λ _, Some res.

Definition with_keys (net : Request → option Response) : Env :=
  {| NAVER_CLIENT_ID := Some "id";
     NAVER_CLIENT_SECRET := Some "secret";
     httpx_get := net |}.

Definition without_keys (net : Request → option Response) : Env :=
  {| NAVER_CLIENT_ID := None;
     NAVER_CLIENT_SECRET := None;
     httpx_get := net |}.

(** Two items as the search API returns them, the second without a
    description and without a date. *)
Definition item1 : gmap string json :=
  {["title" := JStr "A"; "description" := JStr "about A";
    "link" := JStr "http://a"; "pubDate" := JStr "Mon"]}.
Definition item2 : gmap string json :=
  {["title" := JStr "B"; "link" := JStr "http://b"]}.
Definition search_data : gmap string json :=
  {["total" := JInt 2; "items" := JArr [JObj item1; JObj item2]]}.

(** Responses: a page, a search result, an upstream failure. *)
Definition ok_page : Response :=
  {| status_code := 200; text := "<html>...</html>" |}.
Definition ok_search : Response :=
  {| status_code := 200; text := "{...}" |}.
Definition unavailable : Response :=
  {| status_code := 503; text := "try later" |}.

Definition article_url : string := "https://n.news.naver.com/article/001/1".

(** Stand-ins for the two parsers: every body parses to the given value. *)
Definition parses_to {A B} (b : B) : A → B := λ _, b.
Definition no_json : string → option json := parses_to None.
Definition no_page : string → list Bs4.node := parses_to [].

(** The environments of the runs below: a reachable page with and without
    credentials, a search API that answers, one that is down, and a search
    API that would answer a process without credentials. *)
Definition page_env : Env := with_keys (always ok_page).
Definition search_env : Env := with_keys (always ok_search).
Definition down_env : Env := with_keys (always unavailable).
Definition keyless_env : Env := without_keys (always ok_search).

Definition dic_area_attrs : gmap string string := {["id" := "dic_area"]}.


(** A container whose paragraph wraps its text in a [span]. *)
Definition nested_area : Bs4.node :=
  Bs4.Tag "div" dic_area_attrs
    [Bs4.Tag "p" ∅
       [Bs4.Tag "span" ∅
          [Bs4.Str Bs4.NavigableString
             (wide_space ++ korean_word ++ Py.lit " ")]]].
Definition nested_page : list Bs4.node := [Bs4.Tag "body" ∅ [nested_area]].

(** A title, and text in no [p] tag. *)
Definition titled_page : list Bs4.node :=
  [Bs4.Tag "title" ∅ [text_node "Only a title"];
   Bs4.Tag "div" ∅ [span "text in a span"]].

(** A title with markup in it, above a paragraph. *)
Definition marked_title : Bs4.node :=
  Bs4.Tag "title" ∅ [text_node "Big "; Bs4.Tag "b" ∅ [text_node "news"]].
Definition marked_title_page : list Bs4.node := [marked_title; p "body text"].
Definition marked_title_blank_page : list Bs4.node :=
  [marked_title; p_text wide_space].

(** Search bodies: no [items] key, a null [items], an item that is a
    number. *)
Definition data_without_items : gmap string json := {["total" := JInt 0]}.
Definition data_null_items : gmap string json := {["items" := JNull]}.
Definition data_bad_item : gmap string json :=
  {["items" := JArr [JObj item1; JInt 7]]}.

End Samples.

(** ** The two operations and the three handlers *)

Section Backend.

(** The two third-party parsers: [res.json()] on a response body ([None]
    when it raises), and the children of the document
    [BeautifulSoup(html, "html.parser")] builds. *)
Variable json_loads : string → option json.
Variable html_parser : string → list Bs4.node.

Set Default Proof Using "Type".

Definition NAVER_NEWS_URL : string :=
  "https://openapi.naver.com/v1/search/news.json".

(** The dictionary built for one item (lines 65-70). *)
Definition article_of (item : gmap string json) : Article.t :=
  {| Article.title := dict_get item "title";
     Article.desc := dict_get item "description";
     Article.link := dict_get item "link";
     Article.pubDate := dict_get item "pubDate" |}.

(** One element of the list comprehension (lines 64-72): [item.get] exists
    on dictionaries only. *)
Definition project (item : json) : M Article.t :=
  match item with
  | JObj d => mret (article_of d)
  | _ => raise AttributeError
  end.

(** The request of [fetch_news]: [headers] and [params] of lines 45-54. *)
Definition search_request (env : Env) (keyword : string) (limit : Z)
    (sort : string) : Request :=
  let headers :=
    [("X-Naver-Client-Id", default "" (NAVER_CLIENT_ID env));
     ("X-Naver-Client-Secret", default "" (NAVER_CLIENT_SECRET env))] in
  let params :=
    [("query", QStr keyword);
     ("display", QInt (Z.min limit 100));
     ("sort", QStr sort)] in
  {| req_url := NAVER_NEWS_URL; req_headers := headers; req_params := params |}.

(** [fetch_news] (lines 35-78). *)
Definition fetch_news (keyword : string) (limit : Z) (sort : string)
  : M SearchResult.t :=
  env ← ask;
  if negb (getenv_truthy (NAVER_CLIENT_ID env))
     || negb (getenv_truthy (NAVER_CLIENT_SECRET env))
  then raise (HTTPException 500 "NAVER API key missing (.env 확인 필요)")
  else
    res ← client_get (search_request env keyword limit sort);
    if negb (status_code res =? 200)%Z
    then raise (HTTPException (status_code res) (text res))
    else
      match json_loads (text res) with
      | None => raise JSONDecodeError
      | Some (JObj data) =>
          match iterate (default (JArr []) (data !! "items")) with
          | None => raise TypeError
          | Some items =>
              articles ← mapM project items;
              mret {| SearchResult.keyword := keyword;
                      SearchResult.count := Z.of_nat (length articles);
                      SearchResult.articles := articles |}
          end
      | Some _ => raise AttributeError
      end.

(** [BeautifulSoup(html, "html.parser")]: the document object is itself a
    tag, named [[document]], without attributes. *)
Definition BeautifulSoup (html : string) : Bs4.node :=
  Bs4.Tag "[document]" ∅ (html_parser html).

(** Line 100: [soup.title.string.strip() if soup.title and soup.title.string
    else ""]; a tag is always truthy, a string when it is not empty. *)
Definition page_title (soup : Bs4.node) : Py.str :=
  match Bs4.find "title" soup with
  | Some title =>
      match Bs4.string_of title with
      | Some s => if Py.nonempty s then Py.strip s else []
      | None => []
      end
  | None => []
  end.

(** The comprehension [[p.get_text(strip=True) for p in ps
    if p.get_text(strip=True)]] (lines 107-111 and 117-121). *)
Definition paragraphs_of (ps : list Bs4.node) : list Py.str :=
  Bs4.get_text_strip <$>
    List.filter (λ p, Py.nonempty (Bs4.get_text_strip p)) ps.

(** Lines 102-112: the text under [#dic_area], or [""] without it. *)
Definition primary_content (soup : Bs4.node) : Py.str :=
  match Bs4.select_one_id "dic_area" soup with
  | Some main_area =>
      Py.join Py.NL (paragraphs_of (Bs4.find_all ["p"; "span"] main_area))
  | None => []
  end.

(** Lines 116-122: the [p] tags of the whole page, [paragraphs[:30]]. *)
Definition fallback_content (soup : Bs4.node) : Py.str :=
  Py.join Py.NL (take 30 (paragraphs_of (Bs4.find_all ["p"] soup))).

(** Lines 102-122: [content_text] when line 124 is reached. *)
Definition content_text (soup : Bs4.node) : Py.str :=
  let content_text := primary_content soup in
  if negb (Py.nonempty content_text) then fallback_content soup
  else content_text.

(** The request of [fetch_article_content]: the bare [client.get(url)]. *)
Definition page_request (url : string) : Request :=
  {| req_url := url; req_headers := []; req_params := [] |}.

(** [fetch_article_content] (lines 85-132). *)
Definition fetch_article_content (url : string) : M ArticleDetail.t :=
  res ← client_get (page_request url);
  if negb (status_code res =? 200)%Z
  then raise (HTTPException (status_code res) ("기사 요청 실패: " ++ text res))
  else
    let html := text res in
    let soup := BeautifulSoup html in
    let title := page_title soup in
    let content_text := content_text soup in
    if negb (Py.nonempty title) && negb (Py.nonempty content_text)
    then raise (HTTPException 500 "본문을 가져오지 못했습니다.")
    else mret {| ArticleDetail.url := url;
                 ArticleDetail.title := title;
                 ArticleDetail.content := content_text;
                 ArticleDetail.origin_link := url |}.

(** [GET /hot-news] (lines 149-170). *)
Definition get_hot_news (limit : option Z) (sort : option string)
  : M SearchResult.t :=
  limit ← Query_int 5 1 50 limit;
  sort ← Query_str "popular" sort;
  let naver_sort :=
    if bool_decide (sort ∈ ["latest"; "date"; "time"]) then "date" else "sim" in
  fetch_news "주식" limit naver_sort.

(** [GET /news] (lines 174-192). *)
Definition search_news (keyword : option string) (limit : option Z)
    (sort : option string) : M SearchResult.t :=
  keyword ← Query_required keyword;
  limit ← Query_int 30 1 100 limit;
  sort ← Query_str "latest" sort;
  let naver_sort :=
    if bool_decide (sort ∈ ["latest"; "date"; "time"]) then "date" else "sim" in
  fetch_news keyword limit naver_sort.

(** [GET /article] (lines 196-205). *)
Definition get_article (url : option string) : M ArticleDetail.t :=
  url ← Query_required url;
  fetch_article_content url.

(** The spec's names for the errors raised at lines 43 and 125. *)
Definition ConfigError : exn :=
  HTTPException 500 "NAVER API key missing (.env 확인 필요)".
Definition ExtractionError : exn :=
  HTTPException 500 "본문을 가져오지 못했습니다.".

(** The value returned at lines 127-132. *)
Definition article_detail (url : string) (title content : Py.str)
  : ArticleDetail.t :=
  {| ArticleDetail.url := url;
     ArticleDetail.title := title;
     ArticleDetail.content := content;
     ArticleDetail.origin_link := url |}.

(** Both credentials are present and not empty (line 42 lets the call
    through). *)
Definition configured (env : Env) : Prop :=
  getenv_truthy (NAVER_CLIENT_ID env) = true
  ∧ getenv_truthy (NAVER_CLIENT_SECRET env) = true.

(** What the framework accepts for [Query(_, ge=lo, le=hi)]. *)
Definition accepted (lo hi : Z) (raw : option Z) : Prop :=
  match raw with
  | None => True
  | Some v => lo ≤ v ≤ hi
  end.

(** [item] as a dictionary, when it is one: what [item.get] needs. *)
Definition as_object (v : json) : option (gmap string json) :=
  match v with
  | JObj d => Some d
  | _ => None
  end.

(** No whitespace at the front, and none at the back, of a text. *)
Definition starts_clean (s : Py.str) : bool :=
  match s with
  | [] => true
  | c :: _ => negb (Py.isspace c)
  end.

Fixpoint ends_clean (s : Py.str) : bool :=
  match s with
  | [] => true
  | [c] => negb (Py.isspace c)
  | _ :: s' => ends_clean s'
  end.

(** A text made of whitespace only (the empty one included). *)
Definition blank (s : Py.str) : Prop := Forall (λ c, Py.isspace c = true) s.

(** [t] is [raw] without its leading and trailing whitespace: what "the
    trimmed text" means, said without [Py.strip]. *)
Definition trimmed_of (raw t : Py.str) : Prop :=
  ∃ front back,
    raw = (front ++ t ++ back)%list
    ∧ blank front ∧ blank back
    ∧ starts_clean t = true ∧ ends_clean t = true.

(** *** Strings and lists of paragraphs *)

Lemma truthy_true (s : string) : Py.truthy s = true ↔ s ≠ "".
Proof. destruct s; simpl; split; try done. Qed.

Lemma truthy_false (s : string) : Py.truthy s = false ↔ s = "".
Proof. destruct s; simpl; split; try done. Qed.

Lemma nonempty_true (s : Py.str) : Py.nonempty s = true ↔ s ≠ [].
Proof. destruct s; simpl; split; try done. Qed.

Lemma nonempty_false (s : Py.str) : Py.nonempty s = false ↔ s = [].
Proof. destruct s; simpl; split; try done. Qed.

Lemma paragraphs_of_filter (ps : list Bs4.node) :
  paragraphs_of ps = List.filter Py.nonempty (Bs4.get_text_strip <$> ps).
Proof.
  unfold paragraphs_of.
  induction ps as [|q ps IH]; [done|]. simpl.
  destruct (Py.nonempty (Bs4.get_text_strip q)); simpl; [f_equal|]; exact IH.
Qed.







(** *** Stripping *)

Lemma lstrip_starts_clean (s : Py.str) : starts_clean (Py.lstrip s) = true.
Proof.
  induction s as [|c s IH]; [done|]. simpl.
  destruct (Py.isspace c) eqn:E; [done|]. simpl. by rewrite E.
Qed.

Lemma rstrip_starts_clean (s : Py.str) :
  starts_clean s = true → starts_clean (Py.rstrip s) = true.
Proof.
  destruct s as [|c s]; [done|]. simpl. intros Hc.
  apply negb_true_iff in Hc.
  destruct (Py.rstrip s); simpl; rewrite ?Hc; simpl; by rewrite ?Hc.
Qed.

Lemma rstrip_ends_clean (s : Py.str) : ends_clean (Py.rstrip s) = true.
Proof.
  induction s as [|c s IH]; [done|]. simpl.
  destruct (Py.rstrip s) as [|d r]; [|done].
  destruct (Py.isspace c) eqn:E; [done|]. simpl. by rewrite E.
Qed.

Lemma lstrip_clean (s : Py.str) : starts_clean s = true → Py.lstrip s = s.
Proof.
  destruct s as [|c s]; [done|]. simpl. intros Hc.
  apply negb_true_iff in Hc. by rewrite Hc.
Qed.

Lemma rstrip_cons (c : N) (s : Py.str) :
  Py.rstrip (c :: s)
  = match Py.rstrip s with
    | [] => if Py.isspace c then [] else [c]
    | r => c :: r
    end.
Proof. done. Qed.

Lemma rstrip_clean (s : Py.str) : ends_clean s = true → Py.rstrip s = s.
Proof.
  induction s as [|c s IH]; [done|]. intros Hc.
  destruct s as [|d s].
  - simpl in *. apply negb_true_iff in Hc. by rewrite Hc.
  - rewrite rstrip_cons. by rewrite IH.
Qed.

(** A text is its own [strip] exactly when both ends are clean. *)
Lemma strip_fixed_iff (s : Py.str) :
  Py.strip s = s ↔ starts_clean s = true ∧ ends_clean s = true.
Proof.
  unfold Py.strip. split.
  - intros <-. split.
    + apply rstrip_starts_clean, lstrip_starts_clean.
    + apply rstrip_ends_clean.
  - intros [Hs He]. rewrite (lstrip_clean _ Hs). by apply rstrip_clean.
Qed.

Lemma strip_strip (s : Py.str) : Py.strip (Py.strip s) = Py.strip s.
Proof.
  apply strip_fixed_iff. split.
  - apply rstrip_starts_clean, lstrip_starts_clean.
  - apply rstrip_ends_clean.
Qed.

Lemma lstrip_blank_prefix (front s : Py.str) :
  blank front → Py.lstrip (front ++ s) = Py.lstrip s.
Proof.
  induction 1 as [|c front Hc _ IH]; [done|]. simpl. by rewrite Hc.
Qed.

Lemma rstrip_blank (back : Py.str) : blank back → Py.rstrip back = [].
Proof.
  induction 1 as [|c back Hc _ IH]; [done|].
  rewrite rstrip_cons, IH. by rewrite Hc.
Qed.

Lemma rstrip_blank_suffix (s back : Py.str) :
  blank back → Py.rstrip (s ++ back) = Py.rstrip s.
Proof.
  intros Hb. induction s as [|c s IH]; [by apply rstrip_blank|].
  change ((c :: s) ++ back)%list with (c :: (s ++ back))%list.
  by rewrite !rstrip_cons, IH.
Qed.

(** [strip] computes the trimmed text, and nothing else is one. *)
Lemma strip_trimmed_of (raw t : Py.str) :
  trimmed_of raw t → Py.strip raw = t.
Proof.
  intros (front & back & -> & Hf & Hb & Hs & He). unfold Py.strip.
  rewrite (lstrip_blank_prefix _ _ Hf).
  destruct t as [|c t].
  - simpl. assert (Hl : Py.lstrip back = []).
    { clear -Hb. induction Hb as [|c back Hc _ IH]; [done|].
      simpl. by rewrite Hc. }
    by rewrite Hl.
  - rewrite lstrip_clean by done.
    rewrite (rstrip_blank_suffix _ _ Hb). by apply rstrip_clean.
Qed.

Lemma blank_nil : blank [].
Proof. constructor. Qed.

Lemma lstrip_front (s : Py.str) :
  ∃ front, s = (front ++ Py.lstrip s)%list ∧ blank front.
Proof.
  induction s as [|c s (front & Hs & Hf)].
  - exists []. split; [done|apply blank_nil].
  - simpl. destruct (Py.isspace c) eqn:E.
    + exists (c :: front). split; [simpl; by f_equal|by constructor].
    + exists []. split; [done|apply blank_nil].
Qed.

Lemma rstrip_back (s : Py.str) :
  ∃ back, s = (Py.rstrip s ++ back)%list ∧ blank back.
Proof.
  induction s as [|c s (back & Hs & Hb)].
  - exists []. split; [done|apply blank_nil].
  - rewrite rstrip_cons. destruct (Py.rstrip s) as [|d r].
    + simpl in Hs. subst s. destruct (Py.isspace c) eqn:E.
      * exists (c :: back). split; [done|by constructor].
      * by exists back.
    + exists back. split; [|done]. simpl. by f_equal.
Qed.

Lemma strip_is_trimmed_of (raw : Py.str) : trimmed_of raw (Py.strip raw).
Proof.
  destruct (lstrip_front raw) as (front & Hraw & Hf).
  destruct (rstrip_back (Py.lstrip raw)) as (back & Hl & Hb).
  exists front, back. fold (Py.strip raw) in Hl.
  split; [by rewrite <- Hl|]. split; [done|]. split; [done|].
  split.
  - apply rstrip_starts_clean, lstrip_starts_clean.
  - apply rstrip_ends_clean.
Qed.

Lemma starts_clean_append (s t : Py.str) :
  s ≠ [] → starts_clean (s ++ t) = starts_clean s.
Proof. by destruct s. Qed.

Lemma ends_clean_append (s t : Py.str) :
  t ≠ [] → ends_clean (s ++ t) = ends_clean t.
Proof.
  intros Ht. induction s as [|c s IH]; [done|].
  simpl. destruct (s ++ t)%list eqn:E; [|done].
  destruct s; [|done]. simpl in E. by subst.
Qed.

Lemma append_nonempty (s t : Py.str) : s ≠ [] → (s ++ t)%list ≠ [].
Proof. by destruct s. Qed.

Lemma append_nonempty_r (s t : Py.str) : t ≠ [] → (s ++ t)%list ≠ [].
Proof. destruct s; [done|]. by simpl. Qed.

(** Joining non-empty pieces with clean ends gives clean ends, whatever the
    separator. *)
Lemma join_clean (sep : Py.str) (l : list Py.str) :
  Forall (λ s, s ≠ [] ∧ starts_clean s = true ∧ ends_clean s = true) l →
  starts_clean (Py.join sep l) = true ∧ ends_clean (Py.join sep l) = true.
Proof.
  induction 1 as [|s l (Hne & Hs & He) Hl IH]; [done|].
  destruct l as [|t l]; [done|].
  change (Py.join sep (s :: t :: l))
    with (s ++ sep ++ Py.join sep (t :: l))%list.
  assert (Hrest : Py.join sep (t :: l) ≠ []).
  { inversion Hl as [|? ? (Ht & _) Hl']; subst.
    destruct l as [|u l]; [done|].
    change (Py.join sep (t :: u :: l))
      with (t ++ sep ++ Py.join sep (u :: l))%list.
    by apply append_nonempty. }
  split.
  - by rewrite starts_clean_append.
  - rewrite ends_clean_append by by apply append_nonempty_r.
    rewrite ends_clean_append by done. apply IH.
Qed.

Lemma strip_piece_clean (s : Py.str) :
  starts_clean (Py.strip s) = true ∧ ends_clean (Py.strip s) = true.
Proof. apply strip_fixed_iff, strip_strip. Qed.

Lemma stripped_strings_clean (n : Bs4.node) :
  Forall (λ s, s ≠ [] ∧ starts_clean s = true ∧ ends_clean s = true)
    (Bs4.stripped_strings n).
Proof.
  unfold Bs4.stripped_strings.
  induction (Bs4.descendants n) as [|d ds IH]; [constructor|].
  simpl. apply Forall_app. split; [|exact IH].
  destruct d as [cls s|]; [|constructor].
  destruct (Bs4.interesting cls); simpl; [|constructor].
  destruct (Py.nonempty (Py.strip s)) eqn:E; [|constructor].
  constructor; [|constructor].
  split; [by apply nonempty_true|apply strip_piece_clean].
Qed.

Lemma get_text_strip_clean (n : Bs4.node) :
  starts_clean (Bs4.get_text_strip n) = true
  ∧ ends_clean (Bs4.get_text_strip n) = true.
Proof. apply join_clean, stripped_strings_clean. Qed.


Lemma paragraphs_of_clean (ps : list Bs4.node) :
  Forall (λ s, s ≠ [] ∧ starts_clean s = true ∧ ends_clean s = true)
    (paragraphs_of ps).
Proof.
  unfold paragraphs_of.
  induction ps as [|q ps IH]; [constructor|]. simpl.
  destruct (Py.nonempty (Bs4.get_text_strip q)) eqn:E; [|exact IH].
  simpl. constructor; [|exact IH].
  split; [by apply nonempty_true|apply get_text_strip_clean].
Qed.

Lemma page_title_trimmed (soup : Bs4.node) :
  Py.strip (page_title soup) = page_title soup.
Proof.
  unfold page_title.
  destruct (Bs4.find "title" soup) as [t|]; [|done].
  destruct (Bs4.string_of t) as [s|]; [|done].
  destruct (Py.nonempty s); [apply strip_strip|done].
Qed.

Lemma content_text_trimmed (soup : Bs4.node) :
  Py.strip (content_text soup) = content_text soup.
Proof.
  apply strip_fixed_iff. unfold content_text.
  destruct (negb (Py.nonempty (primary_content soup))).
  - unfold fallback_content. apply join_clean, Forall_take, paragraphs_of_clean.
  - unfold primary_content.
    destruct (Bs4.select_one_id "dic_area" soup); [|done].
    apply join_clean, paragraphs_of_clean.
Qed.

(** *** Running the article extractor *)

(** On a fetched page the extractor sends its one request and ends as lines
    124-132 say. *)
Lemma fetch_article_content_fetched (url : string) (env : Env) (res : Response) :
  httpx_get env (page_request url) = Some res →
  status_code res = 200 →
  fetch_article_content url env =
    ([page_request url],
     let soup := BeautifulSoup (text res) in
     if Py.nonempty (page_title soup) || Py.nonempty (content_text soup)
     then inr (article_detail url (page_title soup) (content_text soup))
     else inl ExtractionError).
Proof.
  intros Hget Hst.
  unfold fetch_article_content, mbind, M_bind, client_get.
  rewrite Hget, Hst. simpl.
  destruct (Py.nonempty (page_title _)), (Py.nonempty (content_text _)); done.
Qed.

Lemma fetch_article_content_failed (url : string) (env : Env) (res : Response) :
  httpx_get env (page_request url) = Some res →
  status_code res ≠ 200 →
  fetch_article_content url env =
    ([page_request url],
     inl (HTTPException (status_code res) ("기사 요청 실패: " ++ text res))).
Proof.
  intros Hget Hst.
  unfold fetch_article_content, mbind, M_bind, client_get.
  rewrite Hget. apply Z.eqb_neq in Hst. by rewrite Hst.
Qed.

Lemma fetch_article_content_unreachable (url : string) (env : Env) :
  httpx_get env (page_request url) = None →
  fetch_article_content url env = ([page_request url], inl TransportError).
Proof.
  intros Hget.
  unfold fetch_article_content, mbind, M_bind, client_get.
  by rewrite Hget.
Qed.

(** *** The two extraction strategies *)

Lemma primary_content_present (soup main_area : Bs4.node) :
  Bs4.select_one_id "dic_area" soup = Some main_area →
  primary_content soup =
    Py.join Py.NL
      (List.filter Py.nonempty
         (Bs4.get_text_strip <$> Bs4.find_all ["p"; "span"] main_area)).
Proof.
  intros H. unfold primary_content. by rewrite H, paragraphs_of_filter.
Qed.

Lemma primary_content_absent (soup : Bs4.node) :
  Bs4.select_one_id "dic_area" soup = None → primary_content soup = [].
Proof. intros H. unfold primary_content. by rewrite H. Qed.



Lemma content_text_primary (soup : Bs4.node) :
  primary_content soup ≠ [] → content_text soup = primary_content soup.
Proof.
  intros H. unfold content_text. apply nonempty_true in H. by rewrite H.
Qed.

Lemma content_text_fallback (soup : Bs4.node) :
  primary_content soup = [] → content_text soup = fallback_content soup.
Proof.
  intros H. unfold content_text. apply nonempty_false in H. by rewrite H.
Qed.

Lemma content_text_empty_iff (soup : Bs4.node) :
  content_text soup = [] ↔
    primary_content soup = [] ∧ fallback_content soup = [].
Proof.
  destruct (decide (primary_content soup = [])) as [E|E].
  - rewrite (content_text_fallback _ E). tauto.
  - rewrite (content_text_primary _ E). tauto.
Qed.



(** *** Properties of the article extractor *)



(** C5: the extractor fails with the extraction error if and only if the
    page was fetched and the title, the text of the primary strategy and the
    text of the fallback strategy are all empty; a fetched page with a
    non-empty title or a non-empty content gives an article detail. *)
Theorem extraction_error_iff (url : string) (env : Env) :
  (outcome (fetch_article_content url) env = inl ExtractionError ↔
     ∃ res,
       httpx_get env (page_request url) = Some res
       ∧ status_code res = 200
       ∧ page_title (BeautifulSoup (text res)) = []
       ∧ primary_content (BeautifulSoup (text res)) = []
       ∧ fallback_content (BeautifulSoup (text res)) = [])
  ∧ (∀ res,
       httpx_get env (page_request url) = Some res →
       status_code res = 200 →
       page_title (BeautifulSoup (text res)) ≠ []
       ∨ content_text (BeautifulSoup (text res)) ≠ [] →
       outcome (fetch_article_content url) env
       = inr (article_detail url (page_title (BeautifulSoup (text res)))
                (content_text (BeautifulSoup (text res))))).
Proof.
  split.
  - unfold outcome.
    destruct (httpx_get env (page_request url)) as [res|] eqn:Hget.
    + destruct (decide (status_code res = 200)) as [Hst|Hst].
      * rewrite (fetch_article_content_fetched _ _ _ Hget Hst). cbn [snd].
        destruct (Py.nonempty (page_title _)) eqn:Ht;
          [|destruct (Py.nonempty (content_text _)) eqn:Hc]; cbn [orb].
        -- split; [discriminate|].
           intros (r & Hr & _ & Ht' & _). injection Hr as <-.
           by apply nonempty_true in Ht.
        -- split; [discriminate|].
           intros (r & Hr & _ & _ & Hp & Hf). injection Hr as <-.
           apply nonempty_true in Hc. destruct Hc.
           by apply content_text_empty_iff.
        -- split; [|done]. intros _. exists res.
           apply nonempty_false in Ht. apply nonempty_false in Hc.
           apply content_text_empty_iff in Hc as [Hp Hf]. done.
      * rewrite (fetch_article_content_failed _ _ _ Hget Hst). cbn [snd].
        split; [discriminate|].
        intros (r & Hr & Hst' & _). inversion Hr; by subst r.
    + rewrite (fetch_article_content_unreachable _ _ Hget). cbn [snd].
      split; [discriminate|]. by intros (r & Hr & _).
  - intros res Hget Hst Hne. unfold outcome.
    rewrite (fetch_article_content_fetched _ _ _ Hget Hst). cbn [snd].
    destruct Hne as [H|H]; apply nonempty_true in H; rewrite H;
      by rewrite ?orb_true_r.
Qed.


(** C10: the article-detail operation does not depend on the credentials:
    with the same network, the handler and the extractor send the same
    request and end in the same value or error whatever the two credentials
    are. *)
Theorem article_ignores_credentials
    (id1 secret1 id2 secret2 : option string)
    (net : Request → option Response) (url : option string) (u : string) :
  get_article url
    {| NAVER_CLIENT_ID := id1; NAVER_CLIENT_SECRET := secret1; httpx_get := net |}
  = get_article url
      {| NAVER_CLIENT_ID := id2; NAVER_CLIENT_SECRET := secret2; httpx_get := net |}
  ∧ fetch_article_content u
      {| NAVER_CLIENT_ID := id1; NAVER_CLIENT_SECRET := secret1; httpx_get := net |}
    = fetch_article_content u
        {| NAVER_CLIENT_ID := id2; NAVER_CLIENT_SECRET := secret2; httpx_get := net |}.
Proof.
  assert (H : ∀ v,
    fetch_article_content v
      {| NAVER_CLIENT_ID := id1; NAVER_CLIENT_SECRET := secret1; httpx_get := net |}
    = fetch_article_content v
        {| NAVER_CLIENT_ID := id2; NAVER_CLIENT_SECRET := secret2; httpx_get := net |}).
  { intros v. unfold fetch_article_content, mbind, M_bind, client_get. simpl.
    destruct (net (page_request v)) as [res|]; [|done].
    destruct (negb (status_code res =? 200)); [done|].
    by destruct (negb _ && negb _). }
  split; [|apply H].
  unfold get_article, mbind, M_bind, Query_required.
  destruct url as [v|]; [|done]. simpl. by rewrite H.
Qed.

(** *** Running the search adapter *)

(** The comprehension sends nothing, and on dictionaries it is a map. *)
Lemma mapM_project_objects (ds : list (gmap string json)) (env : Env) :
  mapM project (JObj <$> ds) env = ([], inr (article_of <$> ds)).
Proof.
  induction ds as [|d ds IH]; [done|].
  cbn [fmap list_fmap mapM]. unfold mbind at 1, M_bind at 1.
  cbn [project]. unfold mret at 1, M_ret at 1.
  unfold mbind at 1, M_bind at 1.
  change (list_fmap _ _ JObj ds) with (JObj <$> ds). by rewrite IH.
Qed.

Lemma mapM_project_silent (items : list json) (env : Env) :
  (mapM project items env).1 = [].
Proof.
  induction items as [|i items IH]; [done|].
  cbn [mapM]. unfold mbind at 1, M_bind at 1.
  destruct i; try done.
  cbn [project]. unfold mret at 1, M_ret at 1.
  unfold mbind at 1, M_bind at 1.
  destruct (mapM project items env) as [t [e|l]]; simpl in *; by subst.
Qed.

Lemma fetch_news_unconfigured
    (keyword : string) (limit : Z) (sort : string) (env : Env) :
  getenv_truthy (NAVER_CLIENT_ID env) = false
  ∨ getenv_truthy (NAVER_CLIENT_SECRET env) = false →
  fetch_news keyword limit sort env = ([], inl ConfigError).
Proof.
  intros H. unfold fetch_news, mbind, M_bind, ask.
  destruct H as [-> | ->]; by rewrite ?orb_true_r.
Qed.

(** With both credentials, exactly one request goes out. *)
Lemma fetch_news_sent
    (keyword : string) (limit : Z) (sort : string) (env : Env) :
  configured env →
  requests_sent (fetch_news keyword limit sort) env
  = [search_request env keyword limit sort].
Proof.
  intros [Hid Hsec]. unfold requests_sent, fetch_news, mbind at 1 2, M_bind at 1 2, ask.
  rewrite Hid, Hsec. cbn [negb orb]. unfold client_get.
  destruct (httpx_get env _) as [res|]; [|done].
  destruct (negb (status_code res =? 200)); [done|].
  destruct (json_loads (text res)) as [[| | | | | |data]|]; try done.
  destruct (iterate _) as [items|]; [|done].
  unfold mbind, M_bind. pose proof (mapM_project_silent items env) as Hs.
  destruct (mapM project items env) as [t [e|l]]; simpl in *; by subst.
Qed.

Lemma fetch_news_failed
    (keyword : string) (limit : Z) (sort : string) (env : Env) (res : Response) :
  configured env →
  httpx_get env (search_request env keyword limit sort) = Some res →
  status_code res ≠ 200 →
  fetch_news keyword limit sort env
  = ([search_request env keyword limit sort],
     inl (HTTPException (status_code res) (text res))).
Proof.
  intros [Hid Hsec] Hget Hst. unfold fetch_news, mbind, M_bind, ask.
  rewrite Hid, Hsec. cbn [negb orb]. unfold client_get.
  rewrite Hget. apply Z.eqb_neq in Hst. by rewrite Hst.
Qed.

Lemma fetch_news_items
    (keyword : string) (limit : Z) (sort : string) (env : Env) (res : Response)
    (data : gmap string json) (ds : list (gmap string json)) :
  configured env →
  httpx_get env (search_request env keyword limit sort) = Some res →
  status_code res = 200 →
  json_loads (text res) = Some (JObj data) →
  default (JArr []) (data !! "items") = JArr (JObj <$> ds) →
  fetch_news keyword limit sort env
  = ([search_request env keyword limit sort],
     inr {| SearchResult.keyword := keyword;
            SearchResult.count := Z.of_nat (length ds);
            SearchResult.articles := article_of <$> ds |}).
Proof.
  intros [Hid Hsec] Hget Hst Hjson Hitems.
  unfold fetch_news, mbind at 1 2, M_bind at 1 2, ask.
  rewrite Hid, Hsec. cbn [negb orb]. unfold client_get.
  rewrite Hget, Hst, Hjson, Hitems. cbn [Z.eqb Pos.eqb negb iterate].
  unfold mbind, M_bind. rewrite mapM_project_objects.
  by rewrite length_fmap.
Qed.

(** The handlers, once the framework has accepted the parameters. *)
Lemma get_hot_news_accepted (limit : option Z) (sort : option string) (env : Env) :
  accepted 1 50 limit →
  get_hot_news limit sort env
  = fetch_news "주식" (default 5 limit)
      (if bool_decide (default "popular" sort ∈ ["latest"; "date"; "time"])
       then "date" else "sim") env.
Proof.
  intros Hacc. unfold get_hot_news, mbind, M_bind, Query_int, Query_str.
  destruct limit as [v|]; simpl in *.
  - assert ((1 <=? v) && (v <=? 50) = true) as -> by lia.
    simpl. by destruct (fetch_news _ _ _ env) as [t [e|r]].
  - by destruct (fetch_news _ _ _ env) as [t [e|r]].
Qed.

Lemma search_news_accepted
    (keyword : string) (limit : option Z) (sort : option string) (env : Env) :
  accepted 1 100 limit →
  search_news (Some keyword) limit sort env
  = fetch_news keyword (default 30 limit)
      (if bool_decide (default "latest" sort ∈ ["latest"; "date"; "time"])
       then "date" else "sim") env.
Proof.
  intros Hacc.
  unfold search_news, mbind, M_bind, Query_required, Query_int, Query_str.
  destruct limit as [v|]; simpl in *.
  - assert ((1 <=? v) && (v <=? 100) = true) as -> by lia.
    simpl. by destruct (fetch_news _ _ _ env) as [t [e|r]].
  - by destruct (fetch_news _ _ _ env) as [t [e|r]].
Qed.

Lemma get_hot_news_rejected (v : Z) (sort : option string) (env : Env) :
  ¬ (1 ≤ v ≤ 50) →
  get_hot_news (Some v) sort env = ([], inl RequestValidationError).
Proof.
  intros Hrej. unfold get_hot_news, mbind, M_bind, Query_int.
  assert ((1 <=? v) && (v <=? 50) = false) as -> by lia. done.
Qed.

Lemma search_news_rejected
    (keyword : option string) (v : Z) (sort : option string) (env : Env) :
  ¬ (1 ≤ v ≤ 100) →
  search_news keyword (Some v) sort env = ([], inl RequestValidationError).
Proof.
  intros Hrej. unfold search_news, mbind, M_bind, Query_required, Query_int.
  destruct keyword; [|done]. simpl.
  assert ((1 <=? v) && (v <=? 100) = false) as -> by lia. done.
Qed.

Lemma search_request_params
    (env : Env) (keyword : string) (limit : Z) (sort : string) :
  param "query" (search_request env keyword limit sort) = Some (QStr keyword)
  ∧ param "display" (search_request env keyword limit sort)
    = Some (QInt (Z.min limit 100))
  ∧ param "sort" (search_request env keyword limit sort) = Some (QStr sort).
Proof. unfold param, search_request. cbn [req_params]. by simplify_map_eq. Qed.

Lemma mapM_project_error (items : list json) (env : Env) (e : exn) :
  (mapM project items env).2 = inl e → e = AttributeError.
Proof.
  revert e. induction items as [|i items IH]; intros e; [done|].
  cbn [mapM]. unfold mbind at 1, M_bind at 1.
  destruct i; cbn [project raise]; try (simpl; congruence).
  unfold mret at 1, M_ret at 1. unfold mbind at 1, M_bind at 1.
  destruct (mapM project items env) as [t [e'|l]]; simpl in *; [|done].
  intros [= <-]. by apply IH.
Qed.

(** The adapter itself never reports a rejected parameter. *)
Lemma fetch_news_not_rejected
    (keyword : string) (limit : Z) (sort : string) (env : Env) :
  outcome (fetch_news keyword limit sort) env ≠ inl RequestValidationError.
Proof.
  unfold outcome, fetch_news, mbind at 1 2, M_bind at 1 2, ask.
  destruct (negb _ || negb _); [done|]. unfold client_get.
  destruct (httpx_get env _) as [res|]; [|done].
  destruct (negb (status_code res =? 200)); [done|].
  destruct (json_loads (text res)) as [[| | | | | |data]|]; try done.
  destruct (iterate _) as [items|]; [|done].
  unfold mbind, M_bind. pose proof (mapM_project_error items env) as He.
  destruct (mapM project items env) as [t [e|l]]; simpl in *; [|done].
  intros [= ->]. by specialize (He _ eq_refl).
Qed.

Lemma recency_token (s : string) :
  s ∈ ["latest"; "date"; "time"] ↔ s = "latest" ∨ s = "date" ∨ s = "time".
Proof.
  rewrite list_elem_of_In. simpl. split.
  - intros [<-|[<-|[<-|[]]]]; auto.
  - intros [->|[->| ->]]; auto.
Qed.

(** *** Properties of the search adapter and its handlers *)

(** C3: the sort mapping is total.  For every sort string, on both search
    handlers (credentials present, limit accepted), the one request sent
    carries sort "date" when the input is "latest", "date" or "time", and
    sort "sim" for every other input ("popular" and unknown strings alike);
    no sort string makes the handler report a rejected parameter. *)
Theorem sort_mapping_total
    (env : Env) (keyword : string) (news_limit hot_limit : option Z)
    (sort : string) :
  configured env →
  accepted 1 100 news_limit →
  accepted 1 50 hot_limit →
  let news := search_news (Some keyword) news_limit (Some sort) in
  let hot := get_hot_news hot_limit (Some sort) in
  (sort = "latest" ∨ sort = "date" ∨ sort = "time" →
   param "sort" <$> requests_sent news env = [Some (QStr "date")]
   ∧ param "sort" <$> requests_sent hot env = [Some (QStr "date")])
  ∧ (sort ≠ "latest" → sort ≠ "date" → sort ≠ "time" →
     param "sort" <$> requests_sent news env = [Some (QStr "sim")]
     ∧ param "sort" <$> requests_sent hot env = [Some (QStr "sim")])
  ∧ outcome news env ≠ inl RequestValidationError
  ∧ outcome hot env ≠ inl RequestValidationError.
Proof.
  intros Hcfg Hn Hh news hot. unfold news, hot, requests_sent, outcome.
  rewrite (search_news_accepted _ _ _ _ Hn), (get_hot_news_accepted _ _ _ Hh).
  cbn [default].
  pose proof (λ k l s, fetch_news_sent k l s env Hcfg) as Hsent.
  unfold requests_sent in Hsent.
  repeat split.
  1,2: rewrite bool_decide_eq_true_2 by by apply recency_token.
  3,4: rewrite bool_decide_eq_false_2
         by (rewrite recency_token; intros [?|[?|?]]; contradiction).
  1-4: rewrite Hsent; cbn [fmap list_fmap];
       by rewrite (proj2 (proj2 (search_request_params _ _ _ _))).
  all: apply fetch_news_not_rejected.
Qed.

(** C4, as amended: the adapter passes [min(limit, 100)] as the display
    value, so a limit above 100 that reaches it is sent as 100; the handlers
    do not let such a limit through: [/news] rejects a limit above 100 (500
    for one) and [/hot-news] a limit above 50 as an invalid parameter, without
    any upstream request, and for an accepted limit the display value is the
    limit itself. *)
Theorem limit_clamped_or_rejected
    (env : Env) (keyword : string) (sort : string) (limit : Z) :
  configured env →
  param "display" <$> requests_sent (fetch_news keyword limit sort) env
    = [Some (QInt (Z.min limit 100))]
  ∧ (100 < limit →
     param "display" <$> requests_sent (fetch_news keyword limit sort) env
     = [Some (QInt 100)])
  ∧ (100 < limit → ∀ kw so,
     search_news kw (Some limit) so env = ([], inl RequestValidationError))
  ∧ (50 < limit → ∀ so,
     get_hot_news (Some limit) so env = ([], inl RequestValidationError))
  ∧ (1 ≤ limit ≤ 100 → ∀ so,
     param "display"
       <$> requests_sent (search_news (Some keyword) (Some limit) so) env
     = [Some (QInt limit)])
  ∧ (1 ≤ limit ≤ 50 → ∀ so,
     param "display" <$> requests_sent (get_hot_news (Some limit) so) env
     = [Some (QInt limit)]).
Proof.
  intros Hcfg.
  assert (Hd : ∀ k l s,
    param "display" <$> requests_sent (fetch_news k l s) env
    = [Some (QInt (Z.min l 100))]).
  { intros k l s. rewrite (fetch_news_sent _ _ _ _ Hcfg).
    cbn [fmap list_fmap].
    by destruct (search_request_params env k l s) as (_ & -> & _). }
  split; [apply Hd|]. split.
  { intros Hl. rewrite Hd. rewrite Z.min_r by lia. done. }
  split. { intros Hl kw so. apply search_news_rejected. lia. }
  split. { intros Hl so. apply get_hot_news_rejected. lia. }
  split.
  - intros Hl so. unfold requests_sent.
    rewrite search_news_accepted by (simpl; lia).
    fold (requests_sent
            (fetch_news keyword (default 30 (Some limit))
               (if bool_decide (default "latest" so ∈ ["latest"; "date"; "time"])
                then "date" else "sim")) env).
    rewrite Hd. cbn [default from_option id]. rewrite Z.min_l by lia. done.
  - intros Hl so. unfold requests_sent.
    rewrite get_hot_news_accepted by (simpl; lia).
    fold (requests_sent
            (fetch_news "주식" (default 5 (Some limit))
               (if bool_decide (default "popular" so ∈ ["latest"; "date"; "time"])
                then "date" else "sim")) env).
    rewrite Hd. cbn [default from_option id]. rewrite Z.min_l by lia. done.
Qed.

(** C6: when a credential is absent ([None], or empty), every search
    operation fails with the configuration error before any network call:
    [fetch_news] sends no request and raises it whatever its arguments, and
    the two handlers send no request on any input and end in it on every
    request the framework accepts. *)
Theorem missing_credentials_fail_first (env : Env) :
  getenv_truthy (NAVER_CLIENT_ID env) = false
  ∨ getenv_truthy (NAVER_CLIENT_SECRET env) = false →
  (∀ keyword limit sort,
     requests_sent (fetch_news keyword limit sort) env = []
     ∧ outcome (fetch_news keyword limit sort) env = inl ConfigError)
  ∧ (∀ limit sort,
       requests_sent (get_hot_news limit sort) env = []
       ∧ (accepted 1 50 limit →
          outcome (get_hot_news limit sort) env = inl ConfigError))
  ∧ (∀ keyword limit sort,
       requests_sent (search_news keyword limit sort) env = []
       ∧ (accepted 1 100 limit →
          ∀ k, keyword = Some k →
          outcome (search_news keyword limit sort) env = inl ConfigError)).
Proof.
  intros Hmiss.
  pose proof (λ k l s, fetch_news_unconfigured k l s env Hmiss) as Hf.
  unfold requests_sent, outcome. split; [|split].
  - intros k l s. by rewrite Hf.
  - intros limit sort. split.
    + destruct limit as [v|].
      * destruct (decide (1 ≤ v ≤ 50)) as [Hv|Hv].
        -- rewrite (get_hot_news_accepted (Some v)) by done. by rewrite Hf.
        -- by rewrite get_hot_news_rejected.
      * rewrite (get_hot_news_accepted None) by done. by rewrite Hf.
    + intros Hacc. rewrite get_hot_news_accepted by done. by rewrite Hf.
  - intros keyword limit sort. split.
    + destruct keyword as [k|]; [|done].
      destruct limit as [v|].
      * destruct (decide (1 ≤ v ≤ 100)) as [Hv|Hv].
        -- rewrite (search_news_accepted k (Some v)) by done. by rewrite Hf.
        -- by rewrite search_news_rejected.
      * rewrite (search_news_accepted k None) by done. by rewrite Hf.
    + intros Hacc k ->. rewrite search_news_accepted by done. by rewrite Hf.
Qed.

(** C7: on a successful search response whose [items] are N objects, the
    adapter returns count N and, as articles, the projections of the items
    in the same order; a projected field missing from an item is [None] in
    the article, not an error, and a field the item has is passed on. *)
Theorem search_projection
    (env : Env) (keyword : string) (limit : Z) (sort : string)
    (res : Response) (data : gmap string json) (ds : list (gmap string json)) :
  configured env →
  httpx_get env (search_request env keyword limit sort) = Some res →
  status_code res = 200 →
  json_loads (text res) = Some (JObj data) →
  data !! "items" = Some (JArr (JObj <$> ds)) →
  outcome (fetch_news keyword limit sort) env
    = inr {| SearchResult.keyword := keyword;
             SearchResult.count := Z.of_nat (length ds);
             SearchResult.articles := article_of <$> ds |}
  ∧ (∀ d : gmap string json,
       (d !! "title" = None → Article.title (article_of d) = JNull)
       ∧ (d !! "description" = None → Article.desc (article_of d) = JNull)
       ∧ (d !! "link" = None → Article.link (article_of d) = JNull)
       ∧ (d !! "pubDate" = None → Article.pubDate (article_of d) = JNull))
  ∧ (∀ (d : gmap string json) (v : json),
       (d !! "title" = Some v → Article.title (article_of d) = v)
       ∧ (d !! "description" = Some v → Article.desc (article_of d) = v)
       ∧ (d !! "link" = Some v → Article.link (article_of d) = v)
       ∧ (d !! "pubDate" = Some v → Article.pubDate (article_of d) = v)).
Proof.
  intros Hcfg Hget Hst Hjson Hitems. split; [|split].
  - unfold outcome.
    rewrite (fetch_news_items _ _ _ _ res data ds); try done.
    by rewrite Hitems.
  - intros d. unfold article_of, dict_get. simpl.
    repeat split; by intros ->.
  - intros d v. unfold article_of, dict_get. simpl.
    repeat split; by intros ->.
Qed.

(** C8: when the outbound call comes back with a status other than 200, the
    operation fails with an [HTTPException] that carries that status and the
    raw response body (as the whole detail for the search call, after a fixed
    prefix for the page fetch), and the status of the error response is the
    upstream status. *)
Theorem upstream_failure_mirrored (env : Env) (res : Response) :
  status_code res ≠ 200 →
  (∀ keyword limit sort,
     configured env →
     httpx_get env (search_request env keyword limit sort) = Some res →
     outcome (fetch_news keyword limit sort) env
       = inl (HTTPException (status_code res) (text res))
     ∧ response_status (outcome (fetch_news keyword limit sort) env)
       = status_code res)
  ∧ (∀ url,
       httpx_get env (page_request url) = Some res →
       outcome (fetch_article_content url) env
         = inl (HTTPException (status_code res)
                  ("기사 요청 실패: " ++ text res))
       ∧ response_status (outcome (fetch_article_content url) env)
         = status_code res).
Proof.
  intros Hst. split.
  - intros keyword limit sort Hcfg Hget. unfold outcome.
    by rewrite (fetch_news_failed _ _ _ _ _ Hcfg Hget Hst).
  - intros url Hget. unfold outcome.
    by rewrite (fetch_article_content_failed _ _ _ Hget Hst).
Qed.

(** *** What a returned article detail always has *)

(** X14: whatever the page, a returned article detail carries the requested
    url twice (as [url] and as [origin_link]), a title and a content that are
    not both empty, and neither of them has leading or trailing whitespace
    (in the sense of [str.strip]: the listed Unicode whitespace): [strip]
    leaves both unchanged, their first and last characters are not
    whitespace, and [strip] is exactly the removal of the leading and
    trailing whitespace. *)
Theorem article_detail_is_trimmed
    (url : string) (env : Env) (d : ArticleDetail.t) :
  outcome (fetch_article_content url) env = inr d →
  ArticleDetail.url d = url
  ∧ ArticleDetail.origin_link d = url
  ∧ (ArticleDetail.title d ≠ [] ∨ ArticleDetail.content d ≠ [])
  ∧ Py.strip (ArticleDetail.title d) = ArticleDetail.title d
  ∧ Py.strip (ArticleDetail.content d) = ArticleDetail.content d
  ∧ starts_clean (ArticleDetail.title d) = true
  ∧ ends_clean (ArticleDetail.title d) = true
  ∧ starts_clean (ArticleDetail.content d) = true
  ∧ ends_clean (ArticleDetail.content d) = true
  ∧ (∀ raw t, trimmed_of raw t ↔ Py.strip raw = t).
Proof.
  unfold outcome.
  destruct (httpx_get env (page_request url)) as [res|] eqn:Hget.
  - destruct (decide (status_code res = 200)) as [Hst|Hst].
    + rewrite (fetch_article_content_fetched _ _ _ Hget Hst). cbn [snd].
      destruct (_ || _) eqn:Hsome; [|done]. intros [= <-]. simpl.
      split; [done|]. split; [done|]. split.
      * apply orb_true_iff in Hsome as [H|H]; apply nonempty_true in H; auto.
      * split; [apply page_title_trimmed|].
        split; [apply content_text_trimmed|].
        destruct (proj1 (strip_fixed_iff _) (page_title_trimmed
                    (BeautifulSoup (text res)))) as [Hts Hte].
        destruct (proj1 (strip_fixed_iff _) (content_text_trimmed
                    (BeautifulSoup (text res)))) as [Hcs Hce].
        repeat (split; [done|]).
        intros raw t. split; [apply strip_trimmed_of|].
        intros <-. apply strip_is_trimmed_of.
    + by rewrite (fetch_article_content_failed _ _ _ Hget Hst).
  - by rewrite (fetch_article_content_unreachable _ _ Hget).
Qed.

(** *** The search adapter on every response *)

Lemma mapM_as_object_Some (items : list json) (ds : list (gmap string json)) :
  mapM as_object items = Some ds ↔ items = JObj <$> ds.
Proof.
  revert ds. induction items as [|i items IH]; intros ds.
  - simpl. split; [by intros [= <-]|]. by destruct ds.
  - cbn [mapM]. split.
    + destruct i; try done. simpl.
      destruct (mapM as_object items) as [ds'|] eqn:E; [|done].
      simpl. intros [= <-]. simpl. f_equal. by apply IH.
    + destruct ds as [|d ds]; [done|]. intros [= -> Hds]. simpl.
      apply IH in Hds. by rewrite Hds.
Qed.

Lemma mapM_as_object_None (items : list json) :
  Exists (λ v, as_object v = None) items → mapM as_object items = None.
Proof.
  induction 1 as [i items Hi|i items _ IH]; cbn [mapM].
  - by rewrite Hi.
  - rewrite IH. by destruct (as_object i).
Qed.

(** The comprehension of lines 64-72, run: it sends nothing, and gives the
    projections when every item is a dictionary, [AttributeError] otherwise. *)
Lemma mapM_project_run (items : list json) (env : Env) :
  mapM project items env
  = ([], match mapM as_object items with
         | Some ds => inr (article_of <$> ds)
         | None => inl AttributeError
         end).
Proof.
  induction items as [|i items IH]; [done|].
  cbn [mapM]. unfold mbind at 1, M_bind at 1.
  destruct i; try done.
  cbn [project as_object]. unfold mret at 1, M_ret at 1.
  unfold mbind at 1, M_bind at 1. rewrite IH. simpl.
  by destruct (mapM as_object items).
Qed.

(** [fetch_news] after a 200 answer (lines 62-78). *)
Lemma fetch_news_answered
    (keyword : string) (limit : Z) (sort : string) (env : Env) (res : Response) :
  configured env →
  httpx_get env (search_request env keyword limit sort) = Some res →
  status_code res = 200 →
  fetch_news keyword limit sort env
  = ([search_request env keyword limit sort],
     match json_loads (text res) with
     | None => inl JSONDecodeError
     | Some (JObj data) =>
         match iterate (default (JArr []) (data !! "items")) with
         | None => inl TypeError
         | Some items =>
             match mapM as_object items with
             | Some ds =>
                 inr {| SearchResult.keyword := keyword;
                        SearchResult.count := Z.of_nat (length ds);
                        SearchResult.articles := article_of <$> ds |}
             | None => inl AttributeError
             end
         end
     | Some _ => inl AttributeError
     end).
Proof.
  intros [Hid Hsec] Hget Hst.
  unfold fetch_news, mbind at 1 2, M_bind at 1 2, ask.
  rewrite Hid, Hsec. cbn [negb orb]. unfold client_get.
  rewrite Hget, Hst. cbn [Z.eqb Pos.eqb negb].
  destruct (json_loads (text res)) as [[| | | | | |data]|]; try done.
  destruct (iterate _) as [items|]; [|done].
  unfold mbind, M_bind. rewrite mapM_project_run.
  destruct (mapM as_object items) as [ds|]; [|done].
  simpl. by rewrite length_fmap.
Qed.

Lemma fetch_news_unreachable
    (keyword : string) (limit : Z) (sort : string) (env : Env) :
  configured env →
  httpx_get env (search_request env keyword limit sort) = None →
  fetch_news keyword limit sort env
  = ([search_request env keyword limit sort], inl TransportError).
Proof.
  intros [Hid Hsec] Hget. unfold fetch_news, mbind, M_bind, ask.
  rewrite Hid, Hsec. cbn [negb orb]. unfold client_get. by rewrite Hget.
Qed.

Lemma configured_dec (env : Env) :
  configured env
  ∨ (getenv_truthy (NAVER_CLIENT_ID env) = false
     ∨ getenv_truthy (NAVER_CLIENT_SECRET env) = false).
Proof.
  unfold configured.
  destruct (getenv_truthy (NAVER_CLIENT_ID env)),
    (getenv_truthy (NAVER_CLIENT_SECRET env)); auto.
Qed.

(** X2: the search adapter returns a result exactly when both credentials are
    set, the upstream call answers 200, the body is a JSON object and its
    [items] (an empty list when the key is missing) iterate as dictionaries
    only; the result then holds the keyword, the number of items and their
    projections. *)
Theorem fetch_news_succeeds_iff
    (keyword : string) (limit : Z) (sort : string) (env : Env)
    (r : SearchResult.t) :
  outcome (fetch_news keyword limit sort) env = inr r ↔
    configured env
    ∧ ∃ res data ds,
        httpx_get env (search_request env keyword limit sort) = Some res
        ∧ status_code res = 200
        ∧ json_loads (text res) = Some (JObj data)
        ∧ iterate (default (JArr []) (data !! "items")) = Some (JObj <$> ds)
        ∧ r = {| SearchResult.keyword := keyword;
                 SearchResult.count := Z.of_nat (length ds);
                 SearchResult.articles := article_of <$> ds |}.
Proof.
  unfold outcome. split.
  - destruct (configured_dec env) as [Hcfg|Hmiss];
      [|by rewrite (fetch_news_unconfigured _ _ _ _ Hmiss)].
    destruct (httpx_get env (search_request env keyword limit sort))
      as [res|] eqn:Hget;
      [|by rewrite (fetch_news_unreachable _ _ _ _ Hcfg Hget)].
    destruct (decide (status_code res = 200)) as [Hst|Hst];
      [|by rewrite (fetch_news_failed _ _ _ _ _ Hcfg Hget Hst)].
    rewrite (fetch_news_answered _ _ _ _ _ Hcfg Hget Hst). cbn [snd].
    destruct (json_loads (text res)) as [[| | | | | |data]|] eqn:Hj; try done.
    destruct (iterate _) as [items|] eqn:Hi; [|done].
    destruct (mapM as_object items) as [ds|] eqn:Hm; [|done].
    intros [= <-]. split; [done|]. exists res, data, ds.
    apply mapM_as_object_Some in Hm. by subst.
  - intros (Hcfg & res & data & ds & Hget & Hst & Hj & Hi & ->).
    rewrite (fetch_news_answered _ _ _ _ _ Hcfg Hget Hst). cbn [snd].
    rewrite Hj, Hi.
    by rewrite (proj2 (mapM_as_object_Some _ _) eq_refl).
Qed.

(** X3: every result of the search adapter, on any response, has a count
    equal to the number of its articles and echoes the keyword it was asked
    for; [/hot-news] results carry the fixed keyword. *)
Theorem search_result_invariant
    (keyword : string) (limit : Z) (sort : string)
    (raw_limit : option Z) (raw_sort : option string) (env : Env)
    (r : SearchResult.t) :
  (outcome (fetch_news keyword limit sort) env = inr r →
   SearchResult.count r = Z.of_nat (length (SearchResult.articles r))
   ∧ SearchResult.keyword r = keyword)
  ∧ (outcome (get_hot_news raw_limit raw_sort) env = inr r →
     SearchResult.count r = Z.of_nat (length (SearchResult.articles r))
     ∧ SearchResult.keyword r = "주식")
  ∧ (outcome (search_news (Some keyword) raw_limit raw_sort) env = inr r →
     SearchResult.count r = Z.of_nat (length (SearchResult.articles r))
     ∧ SearchResult.keyword r = keyword).
Proof.
  assert (Hinv : ∀ k l s,
    outcome (fetch_news k l s) env = inr r →
    SearchResult.count r = Z.of_nat (length (SearchResult.articles r))
    ∧ SearchResult.keyword r = k).
  { intros k l s H. apply fetch_news_succeeds_iff in H
      as (_ & res & data & ds & _ & _ & _ & _ & ->).
    simpl. by rewrite length_fmap. }
  split; [apply Hinv|]. unfold outcome in *. split.
  - destruct raw_limit as [v|].
    + destruct (decide (1 ≤ v ≤ 50)) as [Hv|Hv].
      * rewrite (get_hot_news_accepted (Some v)) by done. apply Hinv.
      * by rewrite get_hot_news_rejected.
    + rewrite (get_hot_news_accepted None) by done. apply Hinv.
  - destruct raw_limit as [v|].
    + destruct (decide (1 ≤ v ≤ 100)) as [Hv|Hv].
      * rewrite (search_news_accepted keyword (Some v)) by done. apply Hinv.
      * by rewrite search_news_rejected.
    + rewrite (search_news_accepted keyword None) by done. apply Hinv.
Qed.

(** X4: a 200 answer whose JSON object has no [items] key is not an error:
    the adapter returns count 0 and no articles. *)
Theorem items_missing_is_empty
    (keyword : string) (limit : Z) (sort : string) (env : Env)
    (res : Response) (data : gmap string json) :
  configured env →
  httpx_get env (search_request env keyword limit sort) = Some res →
  status_code res = 200 →
  json_loads (text res) = Some (JObj data) →
  data !! "items" = None →
  outcome (fetch_news keyword limit sort) env
  = inr {| SearchResult.keyword := keyword;
           SearchResult.count := 0;
           SearchResult.articles := [] |}.
Proof.
  intros Hcfg Hget Hst Hj Hi. unfold outcome.
  rewrite (fetch_news_answered _ _ _ _ _ Hcfg Hget Hst). cbn [snd].
  by rewrite Hj, Hi.
Qed.

(** X5: a 200 answer whose [items] key is present with a value that cannot
    be iterated (null, a boolean, a number) makes the adapter fail with a
    [TypeError], a 500 for the client; a null is not read as "no items". *)
Theorem items_not_iterable
    (keyword : string) (limit : Z) (sort : string) (env : Env)
    (res : Response) (data : gmap string json) (v : json) :
  configured env →
  httpx_get env (search_request env keyword limit sort) = Some res →
  status_code res = 200 →
  json_loads (text res) = Some (JObj data) →
  data !! "items" = Some v →
  v = JNull ∨ (∃ b, v = JBool b) ∨ (∃ z, v = JInt z) ∨ (∃ f, v = JFloat f) →
  outcome (fetch_news keyword limit sort) env = inl TypeError
  ∧ response_status (outcome (fetch_news keyword limit sort) env) = 500.
Proof.
  intros Hcfg Hget Hst Hj Hi Hv. unfold outcome.
  rewrite (fetch_news_answered _ _ _ _ _ Hcfg Hget Hst). cbn [snd].
  rewrite Hj, Hi.
  by destruct Hv as [->|[[b ->]|[[z ->]|[f ->]]]].
Qed.

(** X6: one item that is not a JSON object among the [items] fails the whole
    call with an [AttributeError] (a 500): the adapter returns no partial
    list. *)
Theorem item_not_object_fails_all
    (keyword : string) (limit : Z) (sort : string) (env : Env)
    (res : Response) (data : gmap string json) (items : list json) :
  configured env →
  httpx_get env (search_request env keyword limit sort) = Some res →
  status_code res = 200 →
  json_loads (text res) = Some (JObj data) →
  data !! "items" = Some (JArr items) →
  Exists (λ v, ∀ d, v ≠ JObj d) items →
  outcome (fetch_news keyword limit sort) env = inl AttributeError
  ∧ response_status (outcome (fetch_news keyword limit sort) env) = 500.
Proof.
  intros Hcfg Hget Hst Hj Hi Hbad. unfold outcome.
  rewrite (fetch_news_answered _ _ _ _ _ Hcfg Hget Hst). cbn [snd].
  rewrite Hj, Hi. cbn [default from_option id iterate].
  rewrite mapM_as_object_None; [done|].
  eapply Exists_impl; [exact Hbad|].
  intros v Hv. destruct v; try done. by destruct (Hv d).
Qed.

(** X7: a 200 answer whose body is not JSON, or is JSON but not an object,
    is a 500 for the client: [JSONDecodeError] in the first case,
    [AttributeError] in the second. *)
Theorem unusable_body
    (keyword : string) (limit : Z) (sort : string) (env : Env) (res : Response) :
  configured env →
  httpx_get env (search_request env keyword limit sort) = Some res →
  status_code res = 200 →
  (json_loads (text res) = None →
   outcome (fetch_news keyword limit sort) env = inl JSONDecodeError)
  ∧ (∀ v, json_loads (text res) = Some v → (∀ d, v ≠ JObj d) →
     outcome (fetch_news keyword limit sort) env = inl AttributeError)
  ∧ ((∀ d, json_loads (text res) ≠ Some (JObj d)) →
     response_status (outcome (fetch_news keyword limit sort) env) = 500).
Proof.
  intros Hcfg Hget Hst. unfold outcome.
  rewrite (fetch_news_answered _ _ _ _ _ Hcfg Hget Hst). cbn [snd].
  split; [by intros ->|]. split.
  - intros v -> Hv. destruct v; try done. by destruct (Hv d).
  - intros Hno.
    destruct (json_loads (text res)) as [[| | | | | |data]|]; try done.
    by destruct (Hno data).
Qed.

(** *** What the handlers send *)

(** Whatever comes back, the adapter calls [client.get] once when both
    credentials are set and not at all otherwise. *)
Lemma fetch_news_request_shape
    (keyword : string) (limit : Z) (sort : string) (env : Env) (rq : Request) :
  rq ∈ requests_sent (fetch_news keyword limit sort) env →
  configured env
  ∧ rq = search_request env keyword limit sort
  ∧ requests_sent (fetch_news keyword limit sort) env = [rq].
Proof.
  destruct (configured_dec env) as [Hcfg|Hmiss].
  - rewrite (fetch_news_sent _ _ _ _ Hcfg). intros Hin.
    apply list_elem_of_singleton in Hin. by subst.
  - unfold requests_sent. rewrite (fetch_news_unconfigured _ _ _ _ Hmiss).
    intros Hin. by apply elem_of_nil in Hin.
Qed.

Lemma configured_headers (env : Env) (keyword : string) (limit : Z) (sort : string) :
  configured env →
  ∃ id secret,
    id ≠ "" ∧ secret ≠ ""
    ∧ NAVER_CLIENT_ID env = Some id ∧ NAVER_CLIENT_SECRET env = Some secret
    ∧ req_headers (search_request env keyword limit sort)
      = [("X-Naver-Client-Id", id); ("X-Naver-Client-Secret", secret)].
Proof.
  intros [Hid Hsec]. unfold search_request. cbn [req_headers].
  destruct (NAVER_CLIENT_ID env) as [id|]; [|done].
  destruct (NAVER_CLIENT_SECRET env) as [secret|]; [|done].
  exists id, secret. simpl in *.
  repeat split; by apply truthy_true.
Qed.

(** X8: [/news] sends at most one request, and any request it sends goes to
    the search API with both (non-empty) credentials as headers, the given
    keyword as query, a display value between 1 and 100 and a sort that is
    "date" or "sim", whatever the inputs and the environment. *)
Theorem news_request_invariant
    (keyword : option string) (limit : option Z) (sort : option string)
    (env : Env) (rq : Request) :
  rq ∈ requests_sent (search_news keyword limit sort) env →
  requests_sent (search_news keyword limit sort) env = [rq]
  ∧ req_url rq = NAVER_NEWS_URL
  ∧ (∃ id secret,
       id ≠ "" ∧ secret ≠ ""
       ∧ NAVER_CLIENT_ID env = Some id ∧ NAVER_CLIENT_SECRET env = Some secret
       ∧ req_headers rq
         = [("X-Naver-Client-Id", id); ("X-Naver-Client-Secret", secret)])
  ∧ (∃ k, keyword = Some k ∧ param "query" rq = Some (QStr k))
  ∧ (∃ d, param "display" rq = Some (QInt d) ∧ 1 ≤ d ≤ 100)
  ∧ (param "sort" rq = Some (QStr "date") ∨ param "sort" rq = Some (QStr "sim")).
Proof.
  unfold requests_sent at 1 2.
  destruct keyword as [k|];
    [|intros Hin; by apply elem_of_nil in Hin].
  assert (Hacc : accepted 1 100 limit ∨ ∃ v, limit = Some v ∧ ¬ (1 ≤ v ≤ 100)).
  { destruct limit as [v|]; [|by left].
    destruct (decide (1 ≤ v ≤ 100)); [by left|right; eauto]. }
  destruct Hacc as [Hacc|(v & -> & Hv)];
    [|rewrite search_news_rejected by done;
      intros Hin; by apply elem_of_nil in Hin].
  rewrite (search_news_accepted _ _ _ _ Hacc). intros Hin.
  apply fetch_news_request_shape in Hin as (Hcfg & -> & Hsent).
  split; [exact Hsent|]. split; [done|].
  split; [by apply configured_headers|].
  destruct (search_request_params env k (default 30 limit)
              (if bool_decide (default "latest" sort ∈ ["latest"; "date"; "time"])
               then "date" else "sim")) as (Hq & Hd & Hs).
  split; [by exists k|]. split.
  - eexists. split; [exact Hd|].
    destruct limit as [v|]; simpl in *; lia.
  - rewrite Hs. destruct (bool_decide _); auto.
Qed.

(** X9: [/hot-news] sends at most one request, and any request it sends goes
    to the search API with both credentials, the fixed keyword as query, a
    display value between 1 and 50 and a sort that is "date" or "sim". *)
Theorem hot_news_request_invariant
    (limit : option Z) (sort : option string) (env : Env) (rq : Request) :
  rq ∈ requests_sent (get_hot_news limit sort) env →
  requests_sent (get_hot_news limit sort) env = [rq]
  ∧ req_url rq = NAVER_NEWS_URL
  ∧ (∃ id secret,
       id ≠ "" ∧ secret ≠ ""
       ∧ NAVER_CLIENT_ID env = Some id ∧ NAVER_CLIENT_SECRET env = Some secret
       ∧ req_headers rq
         = [("X-Naver-Client-Id", id); ("X-Naver-Client-Secret", secret)])
  ∧ param "query" rq = Some (QStr "주식")
  ∧ (∃ d, param "display" rq = Some (QInt d) ∧ 1 ≤ d ≤ 50)
  ∧ (param "sort" rq = Some (QStr "date") ∨ param "sort" rq = Some (QStr "sim")).
Proof.
  unfold requests_sent at 1 2.
  assert (Hacc : accepted 1 50 limit ∨ ∃ v, limit = Some v ∧ ¬ (1 ≤ v ≤ 50)).
  { destruct limit as [v|]; [|by left].
    destruct (decide (1 ≤ v ≤ 50)); [by left|right; eauto]. }
  destruct Hacc as [Hacc|(v & -> & Hv)];
    [|rewrite get_hot_news_rejected by done;
      intros Hin; by apply elem_of_nil in Hin].
  rewrite (get_hot_news_accepted _ _ _ Hacc). intros Hin.
  apply fetch_news_request_shape in Hin as (Hcfg & -> & Hsent).
  split; [exact Hsent|]. split; [done|].
  split; [by apply configured_headers|].
  destruct (search_request_params env "주식" (default 5 limit)
              (if bool_decide (default "popular" sort ∈ ["latest"; "date"; "time"])
               then "date" else "sim")) as (Hq & Hd & Hs).
  split; [exact Hq|]. split.
  - eexists. split; [exact Hd|].
    destruct limit as [v|]; simpl in *; lia.
  - rewrite Hs. destruct (bool_decide _); auto.
Qed.

(** X10: a request with an invalid parameter is answered 422 before the
    credentials are looked at and before any network call: a limit outside
    1..50 on [/hot-news] or outside 1..100 on [/news] (zero and negative
    limits included), a missing keyword, a missing url. *)
Theorem invalid_parameters_rejected_first (env : Env) :
  (∀ v sort, ¬ (1 ≤ v ≤ 50) →
     get_hot_news (Some v) sort env = ([], inl RequestValidationError))
  ∧ (∀ keyword v sort, ¬ (1 ≤ v ≤ 100) →
       search_news keyword (Some v) sort env = ([], inl RequestValidationError))
  ∧ (∀ limit sort,
       search_news None limit sort env = ([], inl RequestValidationError))
  ∧ get_article None env = ([], inl RequestValidationError)
  ∧ response_status (A := unit) (inl RequestValidationError) = 422.
Proof.
  split; [intros v sort Hv; by apply get_hot_news_rejected|].
  split; [intros keyword v sort Hv; by apply search_news_rejected|].
  done.
Qed.

(** X16: the defaults of the two search handlers differ: without [limit] and
    [sort], [/hot-news] asks for 5 items by relevance ("sim") and [/news]
    for 30 items by recency ("date"). *)
Theorem default_parameters (env : Env) (keyword : string) :
  configured env →
  requests_sent (get_hot_news None None) env
    = [search_request env "주식" 5 "sim"]
  ∧ requests_sent (search_news (Some keyword) None None) env
    = [search_request env keyword 30 "date"].
Proof.
  intros Hcfg. unfold requests_sent.
  rewrite (get_hot_news_accepted None None) by done.
  rewrite (search_news_accepted keyword None None) by done.
  split; by apply fetch_news_sent.
Qed.

(** *** More on the article extractor *)

(** X1: the article handler calls [client.get] exactly once for a given url,
    whatever the page answers, with no header and no parameter: the
    credentials of the search API are never sent to the article's host. *)
Theorem article_request_is_bare (url : string) (env : Env) :
  requests_sent (get_article (Some url)) env
  = [ {| req_url := url; req_headers := []; req_params := [] |} ].
Proof.
  unfold requests_sent, get_article, Query_required.
  unfold mbind at 1, M_bind at 1. unfold mret at 1, M_ret at 1.
  destruct (httpx_get env (page_request url)) as [res|] eqn:Hget.
  - destruct (decide (status_code res = 200)) as [Hst|Hst].
    + by rewrite (fetch_article_content_fetched _ _ _ Hget Hst).
    + by rewrite (fetch_article_content_failed _ _ _ Hget Hst).
  - by rewrite (fetch_article_content_unreachable _ _ Hget).
Qed.


(** X13: a fetched page without the container and without any [p] tag has
    empty content, whatever text its other tags hold: the extractor returns
    the title alone when there is one and fails with the extraction error
    when there is none. *)
Theorem no_paragraph_tags (url : string) (env : Env) (res : Response) :
  httpx_get env (page_request url) = Some res →
  status_code res = 200 →
  Bs4.select_one_id "dic_area" (BeautifulSoup (text res)) = None →
  Bs4.find_all ["p"] (BeautifulSoup (text res)) = [] →
  (page_title (BeautifulSoup (text res)) ≠ [] →
   outcome (fetch_article_content url) env
   = inr (article_detail url (page_title (BeautifulSoup (text res))) []))
  ∧ (page_title (BeautifulSoup (text res)) = [] →
     outcome (fetch_article_content url) env = inl ExtractionError).
Proof.
  intros Hget Hst Harea Hps. unfold outcome.
  rewrite (fetch_article_content_fetched _ _ _ Hget Hst). cbn [snd].
  assert (Hc : content_text (BeautifulSoup (text res)) = []).
  { rewrite content_text_fallback by by apply primary_content_absent.
    unfold fallback_content. by rewrite Hps. }
  rewrite Hc. split.
  - intros Ht. apply nonempty_true in Ht. by rewrite Ht.
  - intros Ht. by rewrite Ht.
Qed.

(** X15: when the first [title] tag of a fetched page does not have exactly
    one child (markup inside the title, or an empty title), the title is
    given up: the extractor returns an empty title with the content, or
    fails with the extraction error when there is no content either. *)
Theorem title_with_markup_is_dropped
    (url : string) (env : Env) (res : Response)
    (name : string) (attrs : gmap string string) (contents : list Bs4.node) :
  httpx_get env (page_request url) = Some res →
  status_code res = 200 →
  Bs4.find "title" (BeautifulSoup (text res))
    = Some (Bs4.Tag name attrs contents) →
  length contents ≠ 1%nat →
  page_title (BeautifulSoup (text res)) = []
  ∧ (content_text (BeautifulSoup (text res)) ≠ [] →
     outcome (fetch_article_content url) env
     = inr (article_detail url [] (content_text (BeautifulSoup (text res)))))
  ∧ (content_text (BeautifulSoup (text res)) = [] →
     outcome (fetch_article_content url) env = inl ExtractionError).
Proof.
  intros Hget Hst Htitle Hlen.
  assert (Ht : page_title (BeautifulSoup (text res)) = []).
  { unfold page_title. rewrite Htitle.
    destruct contents as [|c [|c' cs]]; done. }
  split; [exact Ht|]. unfold outcome.
  rewrite (fetch_article_content_fetched _ _ _ Hget Hst). cbn [snd].
  rewrite Ht. split.
  - intros Hc. apply nonempty_true in Hc. by rewrite Hc.
  - intros Hc. by rewrite Hc.
Qed.

Lemma nested_span_texts
    (nm : string) (attrs a1 a2 : gmap string string) (s : Py.str) :
  Py.strip s ≠ [] →
  Bs4.get_text_strip <$>
    Bs4.find_all ["p"; "span"]
      (Bs4.Tag nm attrs
         [Bs4.Tag "p" a1 [Bs4.Tag "span" a2 [Bs4.Str Bs4.NavigableString s]]])
  = [Py.strip s; Py.strip s].
Proof.
  intros Hs. apply nonempty_true in Hs.
  unfold Bs4.find_all. cbn [Bs4.descendants flat_map app].
  cbn [List.filter Bs4.has_name].
  rewrite !bool_decide_eq_true_2 by (apply list_elem_of_In; simpl; auto).
  cbn [fmap list_fmap]. unfold Bs4.get_text_strip, Bs4.stripped_strings.
  cbn [Bs4.descendants flat_map app Bs4.interesting andb].
  by rewrite Hs.
Qed.

(** X12: [find_all] returns nested matches, so text is repeated: when the
    container holds a [p] whose only child is a [span] with a string whose
    trimmed text [t] is not empty, the content is [t] twice, once for the
    [p] and once for the [span], with a newline between. *)
Theorem nested_span_is_repeated
    (url : string) (env : Env) (res : Response)
    (nm : string) (attrs a1 a2 : gmap string string) (raw t : Py.str) :
  httpx_get env (page_request url) = Some res →
  status_code res = 200 →
  Bs4.select_one_id "dic_area" (BeautifulSoup (text res))
    = Some (Bs4.Tag nm attrs
              [Bs4.Tag "p" a1
                 [Bs4.Tag "span" a2 [Bs4.Str Bs4.NavigableString raw]]]) →
  trimmed_of raw t →
  t ≠ [] →
  outcome (fetch_article_content url) env
  = inr (article_detail url (page_title (BeautifulSoup (text res)))
           (t ++ Py.NL ++ t)%list).
Proof.
  intros Hget Hst Harea Ht Hs. unfold outcome.
  apply strip_trimmed_of in Ht. subst t.
  rewrite (fetch_article_content_fetched _ _ _ Hget Hst). cbn [snd].
  assert (Hp : primary_content (BeautifulSoup (text res))
               = (Py.strip raw ++ Py.NL ++ Py.strip raw)%list).
  { rewrite (primary_content_present _ _ Harea), (nested_span_texts _ _ _ _ _ Hs).
    apply nonempty_true in Hs. simpl. by rewrite Hs. }
  assert (Hne : (Py.strip raw ++ Py.NL ++ Py.strip raw)%list ≠ [])
    by by apply append_nonempty.
  rewrite content_text_primary by by rewrite Hp.
  rewrite Hp. apply nonempty_true in Hne. rewrite Hne. by rewrite orb_true_r.
Qed.

(** *** The handlers as a whole *)

Lemma fetch_news_error_status
    (keyword : string) (limit : Z) (sort : string) (env : Env) (e : exn) :
  outcome (fetch_news keyword limit sort) env = inl e → http_status e ≠ 200.
Proof.
  unfold outcome.
  destruct (configured_dec env) as [Hcfg|Hmiss];
    [|rewrite (fetch_news_unconfigured _ _ _ _ Hmiss); by intros [= <-]].
  destruct (httpx_get env (search_request env keyword limit sort))
    as [res|] eqn:Hget;
    [|rewrite (fetch_news_unreachable _ _ _ _ Hcfg Hget); by intros [= <-]].
  destruct (decide (status_code res = 200)) as [Hst|Hst];
    [|rewrite (fetch_news_failed _ _ _ _ _ Hcfg Hget Hst); by intros [= <-]].
  rewrite (fetch_news_answered _ _ _ _ _ Hcfg Hget Hst). cbn [snd].
  destruct (json_loads (text res)) as [[| | | | | |data]|];
    try by intros [= <-].
  destruct (iterate _) as [items|]; [|by intros [= <-]].
  destruct (mapM as_object items); [done|by intros [= <-]].
Qed.

Lemma fetch_article_content_error_status (url : string) (env : Env) (e : exn) :
  outcome (fetch_article_content url) env = inl e → http_status e ≠ 200.
Proof.
  unfold outcome.
  destruct (httpx_get env (page_request url)) as [res|] eqn:Hget;
    [|rewrite (fetch_article_content_unreachable _ _ Hget); by intros [= <-]].
  destruct (decide (status_code res = 200)) as [Hst|Hst];
    [|rewrite (fetch_article_content_failed _ _ _ Hget Hst); by intros [= <-]].
  rewrite (fetch_article_content_fetched _ _ _ Hget Hst). cbn [snd].
  destruct (_ || _); [done|by intros [= <-]].
Qed.

(** X17: no handler ever reports a failure with status 200: whatever the
    inputs, the credentials and the network, an error response has a status
    other than 200 (422, 500, or the upstream status, which is not 200 on
    that path). *)
Theorem errors_are_never_200 (env : Env) (e : exn) :
  (∀ limit sort,
     outcome (get_hot_news limit sort) env = inl e → http_status e ≠ 200)
  ∧ (∀ keyword limit sort,
       outcome (search_news keyword limit sort) env = inl e →
       http_status e ≠ 200)
  ∧ (∀ url, outcome (get_article url) env = inl e → http_status e ≠ 200).
Proof.
  unfold outcome. split; [|split].
  - intros limit sort.
    destruct limit as [v|].
    + destruct (decide (1 ≤ v ≤ 50)) as [Hv|Hv].
      * rewrite (get_hot_news_accepted (Some v)) by done.
        apply fetch_news_error_status.
      * rewrite get_hot_news_rejected by done. by intros [= <-].
    + rewrite (get_hot_news_accepted None) by done.
      apply fetch_news_error_status.
  - intros keyword limit sort.
    destruct keyword as [k|]; [|by intros [= <-]].
    destruct limit as [v|].
    + destruct (decide (1 ≤ v ≤ 100)) as [Hv|Hv].
      * rewrite (search_news_accepted k (Some v)) by done.
        apply fetch_news_error_status.
      * rewrite search_news_rejected by done. by intros [= <-].
    + rewrite (search_news_accepted k None) by done.
      apply fetch_news_error_status.
  - intros url. destruct url as [u|]; [|by intros [= <-]].
    unfold get_article, Query_required.
    unfold mbind at 1, M_bind at 1. unfold mret at 1, M_ret at 1.
    pose proof (fetch_article_content_error_status u env e) as H.
    unfold outcome in H.
    destruct (fetch_article_content u env) as [t [e'|d]]; [|done].
    simpl in *. exact H.
Qed.

(** X18: with an explicit sort and an explicit limit between 1 and 50,
    [/hot-news] is [/news] for the fixed keyword: same request, same
    result. *)
Theorem hot_news_is_news_for_fixed_keyword
    (env : Env) (limit : Z) (sort : string) :
  1 ≤ limit ≤ 50 →
  get_hot_news (Some limit) (Some sort) env
  = search_news (Some "주식") (Some limit) (Some sort) env.
Proof.
  intros Hl.
  rewrite get_hot_news_accepted by done.
  by rewrite search_news_accepted by (simpl; lia).
Qed.

End Backend.

(** ** The definitions and the theorems at concrete inputs *)

Import Samples.

Example strip_both_ends :
  Py.strip (Py.lit "  a b " ++ Py.NL) = Py.lit "a b".
Proof. vm_compute. reflexivity. Qed.

Example strip_blank : Py.strip (Py.lit "   ") = [].
Proof. vm_compute. reflexivity. Qed.

(** Unicode whitespace is stripped, and a Korean word is left whole. *)
Example strip_wide_space :
  Py.strip (wide_space ++ Py.lit "Hi" ++ wide_space) = Py.lit "Hi".
Proof. vm_compute. reflexivity. Qed.

Example strip_unicode_spaces :
  Py.strip [0x1680; 0x2000; 0x200A; 0x2028; 0x2029; 0x202F; 0x205F; 0x3000;
            0x85; 0xA0; 0x1F]%N = [].
Proof. vm_compute. reflexivity. Qed.

Example strip_korean : Py.strip korean_word = korean_word.
Proof. vm_compute. reflexivity. Qed.

(** The zero-width space U+200B and the Mongolian vowel separator U+180E
    are not whitespace for [str.strip]. *)
Example strip_keeps_zero_width : Py.strip [0x200B; 0x180E]%N = [0x200B; 0x180E]%N.
Proof. vm_compute. reflexivity. Qed.

Example join_lines :
  Py.join Py.NL [Py.lit "a"; Py.lit "b"] = (Py.lit "a" ++ Py.NL ++ Py.lit "b")%list.
Proof. reflexivity. Qed.

(** [get_text(strip=True)] strips each string node on its own, glues them
    without a separator and leaves comments out. *)
Example get_text_nested :
  Bs4.get_text_strip
    (Bs4.Tag "p" ∅
       [text_node " a "; Bs4.Tag "b" ∅ [text_node " b "];
        Bs4.Str Bs4.Comment (Py.lit "x")])
  = Py.lit "ab".
Proof. vm_compute. reflexivity. Qed.

(** [find_all] returns a nested match after the tag that contains it. *)
Example find_all_nested :
  Bs4.find_all ["p"; "span"] (Bs4.Tag "div" ∅ [Bs4.Tag "p" ∅ [span "x"]; p "y"])
  = [Bs4.Tag "p" ∅ [span "x"]; span "x"; p "y"].
Proof. vm_compute. reflexivity. Qed.

Example select_dic_area :
  Bs4.select_one_id "dic_area" (BeautifulSoup (parses_to naver_page) "")
  = Some dic_area.
Proof. vm_compute. reflexivity. Qed.

Example title_of_naver_page :
  page_title (BeautifulSoup (parses_to naver_page) "") = Py.lit "Markets today".
Proof. vm_compute. reflexivity. Qed.

(** A paragraph of ideographic spaces is an empty one: the container of
    [naver_page] yields three lines, the last one the Korean word. *)
Example content_of_naver_page :
  content_text (BeautifulSoup (parses_to naver_page) "")
  = (Py.lit "Stocks rose." ++ Py.NL ++ Py.lit "Bonds fell." ++ Py.NL
     ++ korean_word)%list.
Proof. vm_compute. reflexivity. Qed.

(** A title and a paragraph of ideographic spaces are no title and no
    content: the extraction error. *)
Example wide_blank_page_fails :
  outcome (fetch_article_content (parses_to wide_blank_page) article_url)
    page_env
  = inl ExtractionError.
Proof. vm_compute. reflexivity. Qed.

(** A first paragraph of ideographic spaces does not count among the
    thirty: the content reaches the thirty-first [p] tag. *)
Example wide_blank_first_page_content :
  content_text (BeautifulSoup (parses_to wide_blank_first_page) "")
  = Py.join Py.NL (replicate 29 (Py.lit "early") ++ [Py.lit "late"]).
Proof. vm_compute. reflexivity. Qed.

(** A title with two children has no [.string]. *)
Example title_with_markup :
  page_title
    (Bs4.Tag "[document]" ∅
       [Bs4.Tag "title" ∅ [text_node "a"; Bs4.Tag "b" ∅ [text_node "c"]]])
  = [].
Proof. vm_compute. reflexivity. Qed.

Example hot_news_defaults :
  requests_sent (get_hot_news no_json None None) down_env
  = [ {| req_url := NAVER_NEWS_URL;
         req_headers := [("X-Naver-Client-Id", "id");
                         ("X-Naver-Client-Secret", "secret")];
         req_params := [("query", QStr "주식"); ("display", QInt 5);
                        ("sort", QStr "sim")] |} ].
Proof. vm_compute. reflexivity. Qed.

Example news_defaults :
  param "sort" <$> requests_sent (search_news no_json (Some "AI") None None) down_env
  = [Some (QStr "date")]
  ∧ param "display"
      <$> requests_sent (search_news no_json (Some "AI") None None) down_env
    = [Some (QInt 30)].
Proof. split; vm_compute; reflexivity. Qed.

(** Items that are not objects make the comprehension fail. *)
Example items_not_objects :
  outcome
    (fetch_news (parses_to (Some (JObj {["items" := JArr [JInt 1]]}))) "AI" 10 "date")
    search_env
  = inl AttributeError.
Proof. vm_compute. reflexivity. Qed.

(** A response without [items] gives no articles. *)
Example items_missing :
  outcome (fetch_news (parses_to (Some (JObj ∅))) "AI" 10 "date") search_env
  = inr {| SearchResult.keyword := "AI"; SearchResult.count := 0;
           SearchResult.articles := [] |}.
Proof. vm_compute. reflexivity. Qed.



Lemma extraction_error_iff_run :
  outcome (fetch_article_content (parses_to blank_page) article_url) page_env
    = inl ExtractionError
  ∧ outcome (fetch_article_content (parses_to wide_blank_page) article_url)
      page_env
    = inl ExtractionError.
Proof.
  split.
  - apply (proj1 (extraction_error_iff (parses_to blank_page) article_url
                    page_env)).
    exists ok_page. repeat split; vm_compute; reflexivity.
  - apply (proj1 (extraction_error_iff (parses_to wide_blank_page) article_url
                    page_env)).
    exists ok_page. repeat split; vm_compute; reflexivity.
Defined.


Lemma sort_mapping_total_run :
  param "sort" <$> requests_sent
      (search_news no_json (Some "AI") (Some 10) (Some "time")) down_env
  = [Some (QStr "date")]
  ∧ param "sort" <$> requests_sent
        (get_hot_news no_json None (Some "oldest")) down_env
    = [Some (QStr "sim")].
Proof.
  split.
  - apply (sort_mapping_total no_json down_env "AI" (Some 10) None "time");
      first [by split | simpl; lia | simpl; tauto].
  - apply (sort_mapping_total no_json down_env "AI" None None "oldest");
      first [by split | discriminate].
Defined.

Lemma limit_clamped_or_rejected_run :
  param "display" <$> requests_sent (fetch_news no_json "AI" 500 "sim") down_env
  = [Some (QInt 100)]
  ∧ search_news no_json (Some "AI") (Some 500) None down_env
    = ([], inl RequestValidationError).
Proof.
  pose proof (limit_clamped_or_rejected no_json down_env "AI" "sim" 500
                (conj eq_refl eq_refl)) as (_ & Hclamp & Hnews & _).
  split.
  - apply Hclamp. lia.
  - apply Hnews. lia.
Defined.

Lemma missing_credentials_fail_first_run :
  requests_sent (search_news no_json (Some "AI") None None) keyless_env = []
  ∧ outcome (search_news no_json (Some "AI") None None) keyless_env
    = inl ConfigError.
Proof.
  pose proof (missing_credentials_fail_first no_json keyless_env
                (or_introl eq_refl)) as (_ & _ & Hnews).
  destruct (Hnews (Some "AI") None None) as [Hsent Hout].
  split; [exact Hsent|]. by apply (Hout I "AI").
Defined.

Lemma search_projection_run :
  outcome (fetch_news (parses_to (Some (JObj search_data))) "AI" 10 "date")
    search_env
  = inr {| SearchResult.keyword := "AI";
           SearchResult.count := 2;
           SearchResult.articles :=
             [ {| Article.title := JStr "A"; Article.desc := JStr "about A";
                  Article.link := JStr "http://a"; Article.pubDate := JStr "Mon" |};
               {| Article.title := JStr "B"; Article.desc := JNull;
                  Article.link := JStr "http://b"; Article.pubDate := JNull |} ] |}.
Proof.
  pose proof (search_projection (parses_to (Some (JObj search_data)))
                search_env "AI" 10 "date" ok_search search_data [item1; item2]
                (conj eq_refl eq_refl) eq_refl eq_refl eq_refl
                ltac:(vm_compute; reflexivity)) as [H _].
  rewrite H. vm_compute. reflexivity.
Defined.

Lemma upstream_failure_mirrored_run :
  response_status (outcome (fetch_news no_json "AI" 10 "date") down_env) = 503
  ∧ outcome (fetch_article_content no_page article_url) down_env
    = inl (HTTPException 503 ("기사 요청 실패: " ++ "try later")).
Proof.
  pose proof (upstream_failure_mirrored no_json no_page down_env unavailable
                ltac:(discriminate)) as [Hsearch Hpage].
  split.
  - by apply (Hsearch "AI" 10 "date" (conj eq_refl eq_refl) eq_refl).
  - by apply (Hpage article_url eq_refl).
Defined.


(** C4 as stated fails: a request to [/news] with limit 500 sends no upstream
    request at all, so none with display 100. *)
Lemma limit_500_on_news_sends_nothing :
  search_news no_json (Some "AI") (Some 500) None search_env
    = ([], inl RequestValidationError)
  ∧ ¬ ∃ rq,
        rq ∈ requests_sent (search_news no_json (Some "AI") (Some 500) None)
               search_env
        ∧ param "display" rq = Some (QInt 100).
Proof.
  split; [vm_compute; reflexivity|].
  intros (rq & Hin & _). vm_compute in Hin. by apply elem_of_nil in Hin.
Qed.

(** *** Runs of the further properties *)

Lemma article_detail_is_trimmed_run :
  Py.strip (Py.lit "Markets today") = Py.lit "Markets today"
  ∧ Py.strip (Py.lit "Stocks rose." ++ Py.NL ++ Py.lit "Bonds fell." ++ Py.NL
              ++ korean_word)
    = (Py.lit "Stocks rose." ++ Py.NL ++ Py.lit "Bonds fell." ++ Py.NL
       ++ korean_word)%list.
Proof.
  pose proof (article_detail_is_trimmed (parses_to naver_page) article_url
                page_env
                (article_detail article_url (Py.lit "Markets today")
                   (Py.lit "Stocks rose." ++ Py.NL ++ Py.lit "Bonds fell."
                    ++ Py.NL ++ korean_word))
                ltac:(vm_compute; reflexivity)) as (_ & _ & _ & Ht & Hc & _).
  exact (conj Ht Hc).
Defined.

Lemma fetch_news_succeeds_iff_run :
  outcome (fetch_news (parses_to (Some (JObj search_data))) "AI" 10 "date")
    search_env
  = inr {| SearchResult.keyword := "AI";
           SearchResult.count := Z.of_nat (length [item1; item2]);
           SearchResult.articles := article_of <$> [item1; item2] |}.
Proof.
  apply (proj2 (fetch_news_succeeds_iff
                  (parses_to (Some (JObj search_data))) "AI" 10 "date"
                  search_env _)).
  split; [by split|].
  exists ok_search, search_data, [item1; item2].
  repeat split.
Defined.

Lemma search_result_invariant_run :
  SearchResult.count
    {| SearchResult.keyword := "주식"; SearchResult.count := 2;
       SearchResult.articles := [article_of item1; article_of item2] |}
  = Z.of_nat 2.
Proof.
  pose proof (search_result_invariant (parses_to (Some (JObj search_data)))
                "AI" 10 "date" (Some 10) None search_env
                {| SearchResult.keyword := "주식"; SearchResult.count := 2;
                   SearchResult.articles := [article_of item1; article_of item2] |})
    as (_ & Hhot & _).
  exact (proj1 (Hhot ltac:(vm_compute; reflexivity))).
Defined.

Lemma items_missing_is_empty_run :
  outcome (fetch_news (parses_to (Some (JObj data_without_items))) "AI" 10 "date")
    search_env
  = inr {| SearchResult.keyword := "AI"; SearchResult.count := 0;
           SearchResult.articles := [] |}.
Proof.
  apply (items_missing_is_empty (parses_to (Some (JObj data_without_items)))
           "AI" 10 "date" search_env ok_search data_without_items
           (conj eq_refl eq_refl) eq_refl eq_refl eq_refl).
  vm_compute. reflexivity.
Defined.

Lemma items_not_iterable_run :
  outcome (fetch_news (parses_to (Some (JObj data_null_items))) "AI" 10 "date")
    search_env
  = inl TypeError.
Proof.
  apply (items_not_iterable (parses_to (Some (JObj data_null_items)))
           "AI" 10 "date" search_env ok_search data_null_items JNull
           (conj eq_refl eq_refl) eq_refl eq_refl eq_refl
           ltac:(vm_compute; reflexivity) (or_introl eq_refl)).
Defined.

Lemma item_not_object_fails_all_run :
  outcome (fetch_news (parses_to (Some (JObj data_bad_item))) "AI" 10 "date")
    search_env
  = inl AttributeError.
Proof.
  apply (item_not_object_fails_all (parses_to (Some (JObj data_bad_item)))
           "AI" 10 "date" search_env ok_search data_bad_item
           [JObj item1; JInt 7]
           (conj eq_refl eq_refl) eq_refl eq_refl eq_refl
           ltac:(vm_compute; reflexivity)).
  apply Exists_cons_tl, Exists_cons_hd. discriminate.
Defined.

Lemma unusable_body_run :
  outcome (fetch_news no_json "AI" 10 "date") search_env = inl JSONDecodeError
  ∧ outcome (fetch_news (parses_to (Some (JArr []))) "AI" 10 "date") search_env
    = inl AttributeError.
Proof.
  split.
  - apply (unusable_body no_json "AI" 10 "date" search_env ok_search
             (conj eq_refl eq_refl) eq_refl eq_refl).
    reflexivity.
  - apply (proj1 (proj2 (unusable_body (parses_to (Some (JArr []))) "AI" 10
             "date" search_env ok_search
             (conj eq_refl eq_refl) eq_refl eq_refl)) (JArr []) eq_refl).
    discriminate.
Defined.

Lemma news_request_invariant_run :
  requests_sent (search_news no_json (Some "AI") (Some 100) (Some "popular"))
    down_env
  = [search_request down_env "AI" 100 "sim"].
Proof.
  apply (news_request_invariant no_json (Some "AI") (Some 100) (Some "popular")
           down_env (search_request down_env "AI" 100 "sim")).
  vm_compute. apply list_elem_of_here.
Defined.

Lemma hot_news_request_invariant_run :
  requests_sent (get_hot_news no_json (Some 50) (Some "latest")) down_env
  = [search_request down_env "주식" 50 "date"].
Proof.
  apply (hot_news_request_invariant no_json (Some 50) (Some "latest")
           down_env (search_request down_env "주식" 50 "date")).
  vm_compute. apply list_elem_of_here.
Defined.

Lemma invalid_parameters_rejected_first_run :
  get_hot_news no_json (Some 0) None keyless_env
    = ([], inl RequestValidationError)
  ∧ search_news no_json (Some "AI") (Some (-3)) None search_env
    = ([], inl RequestValidationError).
Proof.
  split.
  - apply (proj1 (invalid_parameters_rejected_first no_json no_page keyless_env)).
    lia.
  - apply (proj1 (proj2 (invalid_parameters_rejected_first no_json no_page
                           search_env))).
    lia.
Defined.

Lemma default_parameters_run :
  requests_sent (get_hot_news no_json None None) down_env
    = [search_request down_env "주식" 5 "sim"]
  ∧ requests_sent (search_news no_json (Some "AI") None None) down_env
    = [search_request down_env "AI" 30 "date"].
Proof.
  apply (default_parameters no_json down_env "AI" (conj eq_refl eq_refl)).
Defined.


Lemma nested_span_is_repeated_run :
  outcome (fetch_article_content (parses_to nested_page) article_url) page_env
  = inr (article_detail article_url []
           (korean_word ++ Py.NL ++ korean_word)%list).
Proof.
  apply (nested_span_is_repeated (parses_to nested_page) article_url page_env
           ok_page "div" dic_area_attrs ∅ ∅
           (wide_space ++ korean_word ++ Py.lit " ") korean_word
           eq_refl eq_refl ltac:(vm_compute; reflexivity)).
  - exists wide_space, (Py.lit " ").
    repeat split; vm_compute; repeat constructor.
  - discriminate.
Defined.

Lemma no_paragraph_tags_run :
  outcome (fetch_article_content (parses_to titled_page) article_url) page_env
    = inr (article_detail article_url (Py.lit "Only a title") [])
  ∧ outcome (fetch_article_content (parses_to wide_title_page) article_url)
      page_env
    = inl ExtractionError.
Proof.
  split.
  - apply (proj1 (no_paragraph_tags (parses_to titled_page) article_url page_env
                    ok_page eq_refl eq_refl
                    ltac:(vm_compute; reflexivity) ltac:(vm_compute; reflexivity))).
    vm_compute. discriminate.
  - apply (proj2 (no_paragraph_tags (parses_to wide_title_page) article_url
                    page_env ok_page eq_refl eq_refl
                    ltac:(vm_compute; reflexivity) ltac:(vm_compute; reflexivity))).
    vm_compute. reflexivity.
Defined.

Lemma title_with_markup_is_dropped_run :
  outcome (fetch_article_content (parses_to marked_title_page) article_url)
      page_env
    = inr (article_detail article_url [] (Py.lit "body text"))
  ∧ outcome (fetch_article_content (parses_to marked_title_blank_page)
               article_url) page_env
    = inl ExtractionError.
Proof.
  split.
  - pose proof (title_with_markup_is_dropped (parses_to marked_title_page)
                  article_url page_env ok_page "title" ∅
                  [text_node "Big "; Bs4.Tag "b" ∅ [text_node "news"]]
                  eq_refl eq_refl ltac:(vm_compute; reflexivity)
                  ltac:(simpl; lia)) as (_ & H & _).
    rewrite H; vm_compute; [reflexivity|discriminate].
  - pose proof (title_with_markup_is_dropped (parses_to marked_title_blank_page)
                  article_url page_env ok_page "title" ∅
                  [text_node "Big "; Bs4.Tag "b" ∅ [text_node "news"]]
                  eq_refl eq_refl ltac:(vm_compute; reflexivity)
                  ltac:(simpl; lia)) as (_ & _ & H).
    apply H. vm_compute. reflexivity.
Defined.

Lemma errors_are_never_200_run :
  http_status (HTTPException 503 "try later") ≠ 200.
Proof.
  apply (proj1 (proj2 (errors_are_never_200 no_json no_page down_env
                         (HTTPException 503 "try later")))
           (Some "AI") (Some 10) None).
  vm_compute. reflexivity.
Defined.

Lemma hot_news_is_news_for_fixed_keyword_run :
  get_hot_news no_json (Some 50) (Some "time") down_env
  = search_news no_json (Some "주식") (Some 50) (Some "time") down_env.
Proof.
  apply (hot_news_is_news_for_fixed_keyword no_json down_env 50 "time"). lia.
Defined.
